(** * Data-flow-graph extraction pipeline of multiview-structcoder

    A shallow embedding of the Python sources
    - [run_preprocessing_small_test.py] ([extract_structure], [add_structure]),
    - [test_dfg_extraction.py] (the construction of [index_to_code]),
    - [parser/build_tree_sitter.py] (the grammars compiled into the library),
    together with a model of the DFG builder of [parser/DFG.py], which the
    sources import and call but which is described only by the specification. *)

From Stdlib Require Import Ascii String.
From Stdlib Require Import QArith DecimalString.
From stdpp Require Import base option list strings gmap fin_maps.

Local Open Scope nat_scope.

(** ** Python text

    A Python [str] is a [string]; positions are character positions. *)
Module PyStr.

Definition newline : ascii := "010"%char.

(** [s[n:]] *)
Fixpoint drop (n : nat) (s : string) : string :=
  match n, s with
  | 0, _ => s
  | S _, EmptyString => EmptyString
  | S n', String _ s' => drop n' s'
  end.

(** [s[:n]] *)
Fixpoint take (n : nat) (s : string) : string :=
  match n, s with
  | 0, _ => EmptyString
  | S _, EmptyString => EmptyString
  | S n', String c s' => String c (take n' s')
  end.

(** [s[a:b]] for non-negative [a], [b]; empty when [b <= a]. *)
Definition slice (a b : nat) (s : string) : string := take (b - a) (drop a s).

(** [''.join(ls)] *)
Fixpoint join (ls : list string) : string :=
  match ls with
  | [] => EmptyString
  | l :: ls' => l +:+ join ls'
  end.

(** ['\n'.join(ls)] *)
Fixpoint join_lines (ls : list string) : string :=
  match ls with
  | [] => EmptyString
  | [l] => l
  | l :: ls' => l +:+ String newline (join_lines ls')
  end.

(** [s.split('\n')]: never empty, one more piece than there are newlines. *)
Fixpoint split (s : string) : list string :=
  match s with
  | EmptyString => [EmptyString]
  | String c s' =>
      if Ascii.eqb c newline then EmptyString :: split s'
      else match split s' with
           | l :: ls => String c l :: ls
           | [] => [String c EmptyString]
           end
  end.

(** [c in s] for a single character [c] *)
Fixpoint mem (c : ascii) (s : string) : bool :=
  match s with
  | EmptyString => false
  | String c' s' => Ascii.eqb c c' || mem c s'
  end.

(** [t in s]: [t] occurs verbatim in [s]. *)
Definition occurs_in (t s : string) : Prop :=
  ∃ pre post, s = pre +:+ t +:+ post.

End PyStr.

(** ** Points, spans and the token index *)

(** A tree-sitter point is [(row, column)]. *)
Definition Point : Type := nat * nat.
(** The key of [index_to_code]: [(start_point, end_point)] of a leaf. *)
Definition Span : Type := Point * Point.

(** [index_to_code]: span of a leaf -> (sequential index, literal text). *)
Abbreviation TokenIndex := (gmap Span (nat * string)).

(** ** Syntax trees, variable states and edges *)

(** The attributes of a tree-sitter node that the pipeline reads:
    [node.type], [node.start_point], [node.end_point], [node.children]. *)
#[warning="-register-all"]
Inductive SyntaxNode : Type :=
  Node (type : string) (start_point end_point : Point)
       (children : list SyntaxNode).

Definition type (n : SyntaxNode) : string :=
  match n with Node k _ _ _ => k end.
Definition start_point (n : SyntaxNode) : Point :=
  match n with Node _ s _ _ => s end.
Definition end_point (n : SyntaxNode) : Point :=
  match n with Node _ _ e _ => e end.
Definition children (n : SyntaxNode) : list SyntaxNode :=
  match n with Node _ _ _ cs => cs end.
Definition span_of (n : SyntaxNode) : Span := (start_point n, end_point n).

(** [states]: variable name -> token indices of its live definitions. *)
Abbreviation VariableState := (gmap string (list nat)).

(** An edge is the Python 5-tuple
    [(variable, token index, relation, source variables, source indices)];
    the fields are named after the positions [d[0]] .. [d[4]]. *)
Record DFGEdge : Type := Edge {
  edge_var : string;
  edge_idx : nat;
  edge_rel : string;
  edge_src_vars : list string;
  edge_src_idxs : list nat
}.

Definition DFGResult : Type := list DFGEdge * VariableState.

(** ** The token indexer, [parser/utils.py] *)

Module Utils.

(** Modelled from the spec: the token indexer [tree_to_token_nodes] of
    [parser/utils.py], which is not among the sources.  Section 4.1: it
    "returns every leaf node's span and literal text, and a total order
    over leaves consistent with a pre-order, left-to-right traversal". *)
Fixpoint tree_to_token_nodes (root_node : SyntaxNode) : list SyntaxNode :=
  match root_node with
  | Node _ _ _ [] => [root_node]
  | Node _ _ _ cs => concat (map tree_to_token_nodes cs)
  end.

(** Modelled from the spec: [tree_to_token_index] of [parser/utils.py],
    the spans of the same leaves in the same order. *)
Definition tree_to_token_index (root_node : SyntaxNode) : list Span :=
  span_of <$> tree_to_token_nodes root_node.

(** The literal text of the token at [index = (start, end)] in the source
    split into lines; [test_dfg_extraction.py], lines 82-89:
<<
    if start[0] == end[0]:
        token = code_lines[start[0]][start[1]:end[1]]
    else:
        token = code_lines[start[0]][start[1]:]     (appended to the empty string)
        for i in range(start[0]+1, end[0]):
            token += code_lines[i]
        token += code_lines[end[0]][:end[1]]
>>
    [None] is the [IndexError] of [code_lines[i]] on a row that does not
    exist. *)
Definition index_to_code_token (index : Span) (code_lines : list string)
  : option string :=
  let '(start, end_) := index in
  if decide (start.1 = end_.1) then
    line ← code_lines !! start.1;
    Some (PyStr.slice start.2 end_.2 line)
  else
    first_line ← code_lines !! start.1;
    middle ← mapM (λ i, code_lines !! i) (seq (S start.1) (end_.1 - S start.1));
    last_line ← code_lines !! end_.1;
    Some (PyStr.drop start.2 first_line +:+ PyStr.join middle
          +:+ PyStr.take end_.2 last_line).

(** [index_to_code = {}; for idx, (start, end) in enumerate(token_index): ...
    index_to_code[(start, end)] = (idx, token)]
    ([test_dfg_extraction.py], lines 80-90); a later leaf with the same span
    overwrites an earlier one. *)
Fixpoint build_index_to_code_from (idx : nat) (token_index : list Span)
    (code_lines : list string) (index_to_code : TokenIndex)
  : option TokenIndex :=
  match token_index with
  | [] => Some index_to_code
  | sp :: rest =>
      token ← index_to_code_token sp code_lines;
      build_index_to_code_from (S idx) rest code_lines
        (<[sp := (idx, token)]> index_to_code)
  end.

Definition build_index_to_code (token_index : list Span)
    (code_lines : list string) : option TokenIndex :=
  build_index_to_code_from 0 token_index code_lines ∅.

End Utils.

(** ** The DFG builder of [parser/DFG.py] *)

Module DFG.

(** Modelled from the spec: the relation kind of a direct copy (section 3),
    as the string that [extract_structure] compares [d[2]] with. *)
Definition comesFrom : string := "comesFrom".
(** Modelled from the spec: the relation kind of a value derived through
    an expression, operator or call (section 3). *)
Definition computedFrom : string := "computedFrom".

(** Modelled from the spec: the canonical patterns of section 4.2 that a
    language grammar maps its node kinds to.  The arguments say how the
    operands are located within the node's children: the positions of the
    left-hand and right-hand operand of an assignment, the kinds of the
    children that are the branches of a conditional, the kinds of the
    children that list the parameters of a function.  A node kind without
    an entry follows the unsupported pattern. *)
Inductive Pattern : Type :=
| LeafIdentifier
| SimpleAssignment (target value : nat)
| CompoundExpression
| DeclarationWithInit (target value : nat)
| Conditional (branch_kinds : list string)
| Loop
| FunctionBoundary (parameter_kinds : list string)
| Call.

(** Modelled from the spec: the per-language node-kind pattern table. *)
Abbreviation PatternTable := (gmap string Pattern).

(** Modelled from the spec: the union of two sequences of token indices,
    those of the first in their order, then the new ones of the second. *)
Definition union_indices (l1 l2 : list nat) : list nat :=
  l1 ++ list_difference l2 l1.

(** Modelled from the spec: the merge of two outgoing states "by union of
    token indices per name (a name defined in only one branch is still
    carried forward)". *)
Definition union_states (s1 s2 : VariableState) : VariableState :=
  union_with (λ l1 l2, Some (union_indices l1 l2)) s1 s2.

(** Modelled from the spec: the merge of the outgoing states of the
    branches of a conditional, in the order of the branches.  The spec
    does not say what leaves a conditional without a branch; the model
    lets the incoming state through. *)
Definition merge_states (incoming : VariableState)
    (outgoing : list VariableState) : VariableState :=
  match outgoing with
  | [] => incoming
  | s :: rest => foldl union_states s rest
  end.

(** Modelled from the spec: a binding overwrites the state of the name
    ("re-binding always overwrites the state for that name going forward
    in sequential code"). *)
Definition bind_names (targets : list (string * nat)) (states : VariableState)
  : VariableState :=
  foldl (λ st t, <[t.1 := [t.2]]> st) states targets.

(** Modelled from the spec: threading of the state through a sequence of
    analyses, edges in traversal order. *)
Fixpoint in_sequence (steps : list (VariableState → DFGResult))
    (states : VariableState) : DFGResult :=
  match steps with
  | [] => ([], states)
  | step :: rest =>
      let '(dfg1, states1) := step states in
      let '(dfg2, states2) := in_sequence rest states1 in
      (dfg1 ++ dfg2, states2)
  end.

Section Builder.

Context (table : PatternTable) (index_to_code : TokenIndex).

(** Modelled from the spec: the names referenced in a subtree, each at
    its own token index.  A leaf whose span is missing from the token
    index is skipped (MalformedSpan, section 7). *)
Fixpoint names_in (n : SyntaxNode) : list (string * nat) :=
  match n with
  | Node kind s e cs =>
      match table !! kind with
      | Some LeafIdentifier =>
          match index_to_code !! (s, e) with
          | Some (idx, code) => [(code, idx)]
          | None => []
          end
      | _ => concat (map names_in cs)
      end
  end.

(** Modelled from the spec: resolution of an expression "to a flat set
    of (name, token-index) source pairs".  A bare name contributes the
    current state entries of that name; every other node the union of
    the source pairs of all its children. *)
Fixpoint sources (states : VariableState) (n : SyntaxNode)
  : list (string * nat) :=
  match n with
  | Node kind s e cs =>
      match table !! kind with
      | Some LeafIdentifier =>
          match index_to_code !! (s, e) with
          | Some (_, code) =>
              map (λ d, (code, d)) (default [] (states !! code))
          | None => []
          end
      | _ => remove_dups (concat (map (sources states) cs))
      end
  end.

(** Modelled from the spec: the relation of the edges of an assignment,
    "comesFrom ... if the right side is a single identifier/attribute
    chain, otherwise computedFrom if the right side is a compound
    expression" (operators, calls, collection literals).  The spec names
    no relation for any other right side (a literal); the model gives it
    comesFrom. *)
Definition relation_of (value : SyntaxNode) : string :=
  match table !! type value with
  | Some CompoundExpression | Some Call => computedFrom
  | _ => comesFrom
  end.

(** Modelled from the spec: the simple-assignment and
    declaration-with-init patterns: one edge per left-hand target name,
    whose sources are the source pairs of the right-hand side, names and
    token indices each listed once; every target is bound to its own
    token index, also when it was undefined before.  An assignment whose
    right-hand operand is missing emits the edges without sources. *)
Definition assign (target value : option SyntaxNode)
    (states : VariableState) : DFGResult :=
  match target with
  | None => ([], states)
  | Some lhs =>
      let pairs := from_option (sources states) [] value in
      let rel := from_option relation_of comesFrom value in
      let targets := names_in lhs in
      (map (λ t, Edge t.1 t.2 rel (remove_dups pairs.*1)
                      (remove_dups pairs.*2)) targets,
       bind_names targets states)
  end.

(** Modelled from the spec: the recursive analyzer of section 4.2,
    [(sub)tree, incoming state -> (edges, outgoing state)], one case
    per pattern of the table:
    - a bare name emits no edge and leaves the state as it is;
    - an assignment or declaration is [assign] on its two operands;
    - a conditional analyses the children that are not branches (the
      condition) first, then every branch on its own from the state that
      leaves the condition, and merges the outgoing states of the branches;
    - a loop runs the analysis of its children twice, the second pass from
      the state that leaves the first, keeps the edges of both passes, and
      adds the entries of the incoming state for the names that the passes
      did not touch;
    - a function boundary analyses its children from a fresh state in
      which the parameters are bound, and hands the incoming state on;
    - a compound expression, a call and a node kind without an entry
      (the unsupported pattern) analyse the children in order, threading
      the state, and emit no edge of their own. *)
Fixpoint analyze (n : SyntaxNode) (states : VariableState) {struct n}
  : DFGResult :=
  match n with
  | Node kind _ _ cs =>
      let subs := map (λ c, (type c, analyze c)) cs in
      match table !! kind with
      | Some LeafIdentifier => ([], states)
      | Some (SimpleAssignment t v) | Some (DeclarationWithInit t v) =>
          assign (cs !! t) (cs !! v) states
      | Some (Conditional branch_kinds) =>
          let is_branch := λ sub : string * (VariableState → DFGResult),
            bool_decide (sub.1 ∈ branch_kinds) in
          let '(dfg, current) :=
            in_sequence (filter (λ sub, ¬ is_branch sub) subs).*2 states in
          let outs :=
            map (λ sub, sub.2 current) (filter is_branch subs) in
          (dfg ++ concat outs.*1, merge_states current outs.*2)
      | Some Loop =>
          let '(dfg1, states1) := in_sequence subs.*2 states in
          let '(dfg2, states2) := in_sequence subs.*2 states1 in
          (dfg1 ++ dfg2, states2 ∪ states)
      | Some (FunctionBoundary parameter_kinds) =>
          let parameters :=
            filter (λ c, type c ∈ parameter_kinds) cs in
          let fresh := bind_names (concat (map names_in parameters)) ∅ in
          ((in_sequence subs.*2 fresh).1, states)
      | Some CompoundExpression | Some Call | None =>
          in_sequence subs.*2 states
      end
  end.

(** The analyses of the children of a node, each with the kind of the
    child, as [analyze] runs them. *)
Definition analyses (cs : list SyntaxNode)
  : list (string * (VariableState → DFGResult)) :=
  map (λ c, (type c, analyze c)) cs.

End Builder.

(** Modelled from the spec: the table of the Python grammar (section 4.2:
    "each supported grammar provides a table mapping node-kind tags to a
    handling strategy").  The spec lists no node kinds; the entries are
    the node kinds of tree-sitter-python with the shape of a pattern:
    [assignment] is [left "=" right], [if_statement] has its consequence
    [block] and its [elif_clause]/[else_clause] children as branches. *)
Definition python_table : PatternTable :=
  list_to_map [
    ("identifier", LeafIdentifier);
    ("assignment", SimpleAssignment 0 2);
    ("augmented_assignment", SimpleAssignment 0 2);
    ("binary_operator", CompoundExpression);
    ("unary_operator", CompoundExpression);
    ("boolean_operator", CompoundExpression);
    ("comparison_operator", CompoundExpression);
    ("not_operator", CompoundExpression);
    ("parenthesized_expression", CompoundExpression);
    ("list", CompoundExpression);
    ("tuple", CompoundExpression);
    ("set", CompoundExpression);
    ("dictionary", CompoundExpression);
    ("call", Call);
    ("if_statement", Conditional ["block"; "elif_clause"; "else_clause"]);
    ("for_statement", Loop);
    ("while_statement", Loop);
    ("function_definition", FunctionBoundary ["parameters"]);
    ("lambda", FunctionBoundary ["lambda_parameters"])
  ].

(** Modelled from the spec: the node kinds of the statements of
    tree-sitter-java.  The consequence and the alternative of an
    [if_statement] are statements of any kind, with or without braces, an
    [if_statement] for an else-if included: they are the branches of the
    conditional, and its other children (the keywords and the
    parenthesized condition) are not. *)
Definition java_statements : list string :=
  ["block"; "expression_statement"; "local_variable_declaration";
   "if_statement"; "for_statement"; "enhanced_for_statement";
   "while_statement"; "do_statement"; "switch_expression";
   "return_statement"; "throw_statement"; "try_statement";
   "try_with_resources_statement"; "break_statement"; "continue_statement";
   "labeled_statement"; "synchronized_statement"; "assert_statement";
   "yield_statement"].

(** Modelled from the spec: the table of the Java grammar, with the node
    kinds of tree-sitter-java; [variable_declarator] is
    [name "=" value]. *)
Definition java_table : PatternTable :=
  list_to_map [
    ("identifier", LeafIdentifier);
    ("assignment_expression", SimpleAssignment 0 2);
    ("variable_declarator", DeclarationWithInit 0 2);
    ("binary_expression", CompoundExpression);
    ("unary_expression", CompoundExpression);
    ("ternary_expression", CompoundExpression);
    ("parenthesized_expression", CompoundExpression);
    ("array_initializer", CompoundExpression);
    ("method_invocation", Call);
    ("object_creation_expression", Call);
    ("if_statement", Conditional java_statements);
    ("for_statement", Loop);
    ("enhanced_for_statement", Loop);
    ("while_statement", Loop);
    ("do_statement", Loop);
    ("method_declaration", FunctionBoundary ["formal_parameters"]);
    ("lambda_expression", FunctionBoundary ["inferred_parameters"])
  ].

(** Modelled from the spec: the node kinds of the statements of
    tree-sitter-c-sharp, the branches of an [if_statement] as for Java;
    the condition is an expression between the parentheses. *)
Definition csharp_statements : list string :=
  ["block"; "expression_statement"; "local_declaration_statement";
   "if_statement"; "for_statement"; "for_each_statement";
   "while_statement"; "do_statement"; "switch_statement";
   "return_statement"; "throw_statement"; "try_statement";
   "break_statement"; "continue_statement"; "using_statement";
   "lock_statement"; "yield_statement"; "labeled_statement";
   "checked_statement"; "unsafe_statement"; "fixed_statement";
   "goto_statement"; "local_function_statement"].

(** Modelled from the spec: the table of the C# grammar, with the node
    kinds of tree-sitter-c-sharp; [variable_declarator] is
    [name equals_value_clause]. *)
Definition csharp_table : PatternTable :=
  list_to_map [
    ("identifier", LeafIdentifier);
    ("assignment_expression", SimpleAssignment 0 2);
    ("variable_declarator", DeclarationWithInit 0 1);
    ("binary_expression", CompoundExpression);
    ("prefix_unary_expression", CompoundExpression);
    ("postfix_unary_expression", CompoundExpression);
    ("conditional_expression", CompoundExpression);
    ("parenthesized_expression", CompoundExpression);
    ("initializer_expression", CompoundExpression);
    ("invocation_expression", Call);
    ("object_creation_expression", Call);
    ("if_statement", Conditional csharp_statements);
    ("for_statement", Loop);
    ("for_each_statement", Loop);
    ("while_statement", Loop);
    ("do_statement", Loop);
    ("method_declaration", FunctionBoundary ["parameter_list"]);
    ("lambda_expression", FunctionBoundary ["parameter_list"])
  ].

End DFG.

(** The three builder functions that the pipeline imports:
    [from parser import DFG_java, DFG_csharp, DFG_python]. *)
Inductive DFGFunction : Type := DFG_python | DFG_java | DFG_csharp.

(** Modelled from the spec: the table of each builder function of
    [parser/DFG.py] (section 4.4: "adding a language means adding one
    table; the builder algorithm itself is language-agnostic"). *)
Definition table_of (f : DFGFunction) : DFG.PatternTable :=
  match f with
  | DFG_python => DFG.python_table
  | DFG_java => DFG.java_table
  | DFG_csharp => DFG.csharp_table
  end.

(** Modelled from the spec: the call
    [f(root_node, index_to_code, states) -> (DFG, states)] of a builder
    function of [parser/DFG.py]: the analyzer run with the table of the
    language. *)
Definition call_dfg (f : DFGFunction) (root_node : SyntaxNode)
    (index_to_code : TokenIndex) (states : VariableState) : DFGResult :=
  DFG.analyze (table_of f) index_to_code root_node states.

(** The body shared by the tests of [test_dfg_extraction.py] (lines 71-93,
    149-171, 228-250): split the source into lines, index the leaves of
    the parsed tree, build [index_to_code] and call the builder on the
    empty state.  The parser is external: [root_node] is the tree it
    returned for [code]. *)
Definition extract_dfg (f : DFGFunction) (root_node : SyntaxNode)
    (code : string) : option DFGResult :=
  let code_lines := PyStr.split code in
  let token_index := Utils.tree_to_token_index root_node in
  index_to_code ← Utils.build_index_to_code token_index code_lines;
  Some (call_dfg f root_node index_to_code ∅).

(** ** Python values and exceptions *)

Inductive PyExn : Type :=
| IndexError | TypeError | KeyError | AttributeError | AssertionError
| OtherError (message : string).

(** A computation returns a value or raises. *)
Inductive result (A : Type) : Type :=
| Ok (a : A)
| Raise (e : PyExn).
Arguments Ok {A} a.
Arguments Raise {A} e.

#[global] Instance result_ret : MRet result := λ A a, Ok a.
#[global] Instance result_bind : MBind result := λ A B k m,
  match m with
  | Ok a => k a
  | Raise e => Raise e
  end.

(** The values that flow through the edge lists: nothing in the pipeline
    fixes the shape of what a builder returns, so an edge is a Python
    value that is indexed and measured dynamically.  A dict is the list of
    its entries, each key once. *)
#[warning="-register-all"]
Inductive PyVal : Type :=
| PyInt (n : Z)
| PyStr (s : string)
| PyList (items : list PyVal)
| PyTuple (items : list PyVal)
| PyDict (entries : list (PyVal * PyVal)).

(** [k == i] for a key [k] of a dict and an integer literal [i] *)
Definition py_key_is (i : nat) (k : PyVal) : bool :=
  match k with
  | PyInt n => bool_decide (n = Z.of_nat i)
  | _ => false
  end.

(** [v[i]] for a non-negative literal [i]: the item at position [i] of a
    sequence, the value under the key [i] of a dict. *)
Definition py_getitem (v : PyVal) (i : nat) : result PyVal :=
  match v with
  | PyList items | PyTuple items =>
      match items !! i with
      | Some x => Ok x
      | None => Raise IndexError
      end
  | PyStr s =>
      match String.get i s with
      | Some c => Ok (PyStr (String c EmptyString))
      | None => Raise IndexError
      end
  | PyDict entries =>
      match list_find (λ entry, py_key_is i entry.1) entries with
      | Some (_, entry) => Ok entry.2
      | None => Raise KeyError
      end
  | PyInt _ => Raise TypeError
  end.

(** [len(v)] *)
Definition py_len (v : PyVal) : result nat :=
  match v with
  | PyList items | PyTuple items => Ok (length items)
  | PyStr s => Ok (String.length s)
  | PyDict entries => Ok (length entries)
  | PyInt _ => Raise TypeError
  end.

(** [v == s] for a string literal [s] *)
Definition py_eq_str (v : PyVal) (s : string) : bool :=
  match v with
  | PyStr s' => bool_decide (s' = s)
  | _ => false
  end.

(** The 5-tuple of an edge and the pair of a final entry as Python values. *)
Definition edge_to_py (d : DFGEdge) : PyVal :=
  PyTuple [PyStr (edge_var d); PyInt (Z.of_nat (edge_idx d));
           PyStr (edge_rel d); PyList (PyStr <$> edge_src_vars d);
           PyList ((PyInt ∘ Z.of_nat) <$> edge_src_idxs d)].

Definition entry_to_py (p : nat * list nat) : PyVal :=
  PyTuple [PyInt (Z.of_nat p.1); PyList ((PyInt ∘ Z.of_nat) <$> p.2)].

(** ** The pipeline, [run_preprocessing_small_test.py] *)

(** [for d in DFG: assert (d[2]=='comesFrom' or d[2]=='computedFrom')]
    (lines 77-78) *)
Fixpoint assert_relations (DFG : list PyVal) : result unit :=
  match DFG with
  | [] => Ok ()
  | d :: rest =>
      rel ← py_getitem d 2;
      if py_eq_str rel "comesFrom" || py_eq_str rel "computedFrom"
      then assert_relations rest
      else Raise AssertionError
  end.

(** The graph assembler:
    [[(d[1], d[4]) for d in DFG if (len(d[4])>0)]] (line 79) *)
Fixpoint assemble (DFG : list PyVal) : result (list PyVal) :=
  match DFG with
  | [] => Ok []
  | d :: rest =>
      d4 ← py_getitem d 4;
      n ← py_len d4;
      if bool_decide (0 < n) then
        d1 ← py_getitem d 1;
        d4 ← py_getitem d 4;
        final ← assemble rest;
        Ok (PyTuple [d1; d4] :: final)
      else assemble rest
  end.

(** The same comprehension on edges of the documented shape. *)
Definition assemble_edges (DFG : list DFGEdge) : list (nat * list nat) :=
  map (λ d, (edge_idx d, edge_src_idxs d))
      (filter (λ d, 0 < length (edge_src_idxs d)) DFG).

(** [parser = [parser, dfg_function[lang]]]: the tree-sitter parser and the
    builder function, both callables defined outside the pipeline. *)
Record ParserPair : Type := {
  parse : string → SyntaxNode;
  build : SyntaxNode → TokenIndex → VariableState
          → result (list PyVal * VariableState)
}.

Section ExtractStructure.

(** The helpers imported from [parser]. *)
Context (tree_to_token_nodes : SyntaxNode → list SyntaxNode)
        (index_to_code_token : Span → list string → result string).

(** [{index:(idx,code_) for idx,(index,code_) in
      enumerate(zip(tokens_index,code_tokens))}] (line 72) *)
Definition index_to_code_of (tokens_index : list Span)
    (code_tokens : list string) : TokenIndex :=
  foldl (λ m entry, <[entry.2.1 := (entry.1, entry.2.2)]> m) ∅
        (imap pair (zip tokens_index code_tokens)).

(** [extract_structure(code, parser)] (lines 64-80); the result is
    [(code_tokens, ast_token_nodes, DFG)]. *)
Definition extract_structure (code : string) (parser : ParserPair)
  : result (list string * list SyntaxNode * list PyVal) :=
  let root_node := parse parser code in
  let ast_token_nodes := tree_to_token_nodes root_node in
  let tokens_index := span_of <$> ast_token_nodes in
  let code := PyStr.split code in
  code_tokens ← mapM (λ x, index_to_code_token x code) tokens_index;
  let index_to_code := index_to_code_of tokens_index code_tokens in
  let DFG :=
    match build parser root_node index_to_code ∅ with
    | Ok (DFG, _) => DFG
    | Raise _ => []
    end in
  _ ← assert_relations DFG;
  DFG ← assemble DFG;
  Ok (code_tokens, ast_token_nodes, DFG).

(** The grammars compiled into [my-languages2.so] by
    [parser/build_tree_sitter.py], by the name under which
    [Language(path, name)] finds them. *)
Definition library_languages : list string :=
  ["go"; "javascript"; "python"; "php"; "java"; "ruby"; "c_sharp"].

(** [Language('parser/my-languages2.so', name)]: loading a grammar that the
    library does not contain raises. *)
Definition Language (name : string) : result string :=
  if bool_decide (name ∈ library_languages) then Ok name
  else Raise AttributeError.

(** [dfg_function={'python':DFG_python, 'java':DFG_java, 'cs':DFG_csharp,
    'c_sharp':DFG_csharp}] (line 86) *)
Definition dfg_function : gmap string DFGFunction :=
  list_to_map [("python", DFG_python); ("java", DFG_java);
               ("cs", DFG_csharp); ("c_sharp", DFG_csharp)].

(** The language dispatch of [add_structure] (lines 83-87): the grammar is
    loaded first, then the builder function is looked up; a tag without an
    entry in [dfg_function] raises [KeyError]. *)
Definition dispatch (lang : string) : result (string * DFGFunction) :=
  LANGUAGE ← Language (if bool_decide (lang = "cs") then "c_sharp" else lang);
  match dfg_function !! lang with
  | Some f => Ok (LANGUAGE, f)
  | None => Raise KeyError
  end.

(** The behaviour of the loaded grammar and of the builder functions. *)
Context (parser_of : string → string → SyntaxNode)
        (builder_of : DFGFunction → SyntaxNode → TokenIndex → VariableState
                      → result (list PyVal * VariableState)).

(** [add_structure(data, lang)] (lines 82-98): the three columns
    [ast_leaf_tokens], [ast_leaves], [dfg_edges] computed from the column
    [data[lang]]. *)
Definition add_structure (data_lang : list string) (lang : string)
  : result (list (list string * list SyntaxNode * list PyVal)) :=
  '(LANGUAGE, f) ← dispatch lang;
  let parser := {| parse := parser_of LANGUAGE; build := builder_of f |} in
  mapM (λ code, extract_structure code parser) data_lang.

End ExtractStructure.

(** Modelled from the spec: a builder function of [parser/DFG.py] as the
    callable that [extract_structure] receives: it returns the edges as
    5-tuples together with the final state, and does not raise. *)
Definition builder_model (f : DFGFunction) (root_node : SyntaxNode)
    (index_to_code : TokenIndex) (states : VariableState)
  : result (list PyVal * VariableState) :=
  let '(dfg, states') := call_dfg f root_node index_to_code states in
  Ok (edge_to_py <$> dfg, states').

(** ** The programs of the test suite

    The parser is external; the trees below are the concrete syntax trees
    of tree-sitter-python for the two programs, node kinds and spans
    included. *)

Module Examples.

Definition leaf (kind : string) (row from to : nat) : SyntaxNode :=
  Node kind (row, from) (row, to) [].

(** The program of [test_complex_example] ([test_dfg_extraction.py],
    lines 219-222). *)
Definition loop_code : string :=
  PyStr.join_lines
    ["total = 0"; "for i in range(5):"; "    total = total + i";
     "result = total * 2"].

Definition loop_tree : SyntaxNode :=
  Node "module" (0, 0) (3, 18) [
    Node "expression_statement" (0, 0) (0, 9) [
      Node "assignment" (0, 0) (0, 9) [
        leaf "identifier" 0 0 5; leaf "=" 0 6 7; leaf "integer" 0 8 9]];
    Node "for_statement" (1, 0) (2, 21) [
      leaf "for" 1 0 3; leaf "identifier" 1 4 5; leaf "in" 1 6 8;
      Node "call" (1, 9) (1, 17) [
        leaf "identifier" 1 9 14;
        Node "argument_list" (1, 14) (1, 17) [
          leaf "(" 1 14 15; leaf "integer" 1 15 16; leaf ")" 1 16 17]];
      leaf ":" 1 17 18;
      Node "block" (2, 4) (2, 21) [
        Node "expression_statement" (2, 4) (2, 21) [
          Node "assignment" (2, 4) (2, 21) [
            leaf "identifier" 2 4 9; leaf "=" 2 10 11;
            Node "binary_operator" (2, 12) (2, 21) [
              leaf "identifier" 2 12 17; leaf "+" 2 18 19;
              leaf "identifier" 2 20 21]]]]];
    Node "expression_statement" (3, 0) (3, 18) [
      Node "assignment" (3, 0) (3, 18) [
        leaf "identifier" 3 0 6; leaf "=" 3 7 8;
        Node "binary_operator" (3, 9) (3, 18) [
          leaf "identifier" 3 9 14; leaf "*" 3 15 16;
          leaf "integer" 3 17 18]]]].

(** The branch program of the specification's branch-union property. *)
Definition branch_code : string :=
  PyStr.join_lines ["if cond:"; "    x = 1"; "else:"; "    x = 2"; "y = x"].

Definition branch_tree : SyntaxNode :=
  Node "module" (0, 0) (4, 5) [
    Node "if_statement" (0, 0) (3, 9) [
      leaf "if" 0 0 2; leaf "identifier" 0 3 7; leaf ":" 0 7 8;
      Node "block" (1, 4) (1, 9) [
        Node "expression_statement" (1, 4) (1, 9) [
          Node "assignment" (1, 4) (1, 9) [
            leaf "identifier" 1 4 5; leaf "=" 1 6 7; leaf "integer" 1 8 9]]];
      Node "else_clause" (2, 0) (3, 9) [
        leaf "else" 2 0 4; leaf ":" 2 4 5;
        Node "block" (3, 4) (3, 9) [
          Node "expression_statement" (3, 4) (3, 9) [
            Node "assignment" (3, 4) (3, 9) [
              leaf "identifier" 3 4 5; leaf "=" 3 6 7;
              leaf "integer" 3 8 9]]]]];
    Node "expression_statement" (4, 0) (4, 5) [
      Node "assignment" (4, 0) (4, 5) [
        leaf "identifier" 4 0 1; leaf "=" 4 2 3; leaf "identifier" 4 4 5]]].




(** The [if_statement] of [branch_tree] on its own. *)
Definition branch_conditional : SyntaxNode :=
  match branch_tree with
  | Node _ _ _ (conditional :: _) => conditional
  | _ => branch_tree
  end.

(** A source whose first string literal spans two rows:
<<
    x = '''a
    b''' + '''ab'''
>>
    The first leaf of kind [string] has the span [((0, 4), (1, 4))]. *)
Definition multiline_code : string :=
  PyStr.join_lines ["x = '''a"; "b''' + '''ab'''"].

Definition multiline_leaf : Span := ((0, 4), (1, 4)).

Definition multiline_tree : SyntaxNode :=
  Node "module" (0, 0) (1, 15) [
    Node "expression_statement" (0, 0) (1, 15) [
      Node "assignment" (0, 0) (1, 15) [
        leaf "identifier" 0 0 1; leaf "=" 0 2 3;
        Node "binary_operator" (0, 4) (1, 15) [
          Node "string" (0, 4) (1, 4) []; leaf "+" 1 5 6;
          leaf "string" 1 7 15]]]].

(** The helpers of [parser/utils.py] and the builder functions as the
    pipeline calls them. *)
Definition index_to_code_token (index : Span) (code : list string)
  : result string :=
  match Utils.index_to_code_token index code with
  | Some token => Ok token
  | None => Raise IndexError
  end.

Definition python_parser (root_node : SyntaxNode) : ParserPair :=
  {| parse := λ _, root_node; build := builder_model DFG_python |}.

Definition failing_parser (root_node : SyntaxNode) : ParserPair :=
  {| parse := λ _, root_node;
     build := λ _ _ _, Raise (OtherError "builder failed") |}.

End Examples.

(** ** Python integers, ranges and slices *)

Module PyLib.

(** [ValueError], among the exceptions of [PyExn]. *)
Definition ValueError : PyExn := OtherError "ValueError".

(** [list(range(start, stop, step))]: a zero step raises; the length is
    [max(0, ceil((stop - start) / step))]. *)
Definition range (start stop step : Z) : result (list Z) :=
  if decide (step = 0)%Z then Raise ValueError
  else
    let n := if decide (0 < step)%Z
             then ((stop - start + step - 1) / step)%Z
             else ((start - stop - step - 1) / (- step))%Z in
    Ok ((λ i, (start + Z.of_nat i * step)%Z) <$> seq 0 (Z.to_nat n)).

(** The position that a slice bound [i] denotes in a sequence of length
    [len]: counted from the end when negative, clipped to [0 .. len]. *)
Definition slice_bound (len : nat) (i : Z) : nat :=
  if decide (i < 0)%Z then Z.to_nat (i + Z.of_nat len)
  else Nat.min (Z.to_nat i) len.

(** [l[a:b]] *)
Definition slice {A} (l : list A) (a b : Z) : list A :=
  let a' := slice_bound (length l) a in
  let b' := slice_bound (length l) b in
  take (b' - a') (drop a' l).

End PyLib.

(** ** Tokenization, [run_preprocessing_small_test.py] lines 45-62 *)

Module Tokenize.

(** A text as the sequence of its code points: iterating a Python [str]
    yields its characters, and [len] counts them. *)
Abbreviation Text := (list N).

(** U+FFFD, the character that a decoder puts for bytes it cannot
    decode. *)
Definition replacement_character : N := 65533.

(** What the pipeline uses of the [RobertaTokenizer]: [vocab_size],
    [decode(i)] and the [input_ids] of a call on a batch of texts. *)
Record Tokenizer : Type := {
  vocab_size : nat;
  decode : nat → Text;
  input_ids : list Text → list (list nat)
}.

(** [get_tokenizer_chars(tokenizer)] (lines 45-52): the tokens of the
    vocabulary that decode to one character, in the order of their ids,
    without the replacement character. *)
Definition get_tokenizer_chars (tokenizer : Tokenizer) : list Text :=
  let tokenizer_chars :=
    filter (λ token, length token = 1)
           (decode tokenizer <$> seq 0 (vocab_size tokenizer)) in
  filter (λ c, c ≠ [replacement_character]) tokenizer_chars.

(** [''.join(filter(lambda c:c in tokenizer_chars, text))] (line 57) *)
Definition keep_chars (tokenizer_chars : list Text) (text : Text) : Text :=
  filter (λ c, [c] ∈ tokenizer_chars) text.

(** [tokenize_codes_texts(texts, batch_size)] (lines 54-62), for the
    tokenizer that [from_pretrained] returns. *)
Definition tokenize_codes_texts (tokenizer : Tokenizer) (texts : list Text)
    (batch_size : Z) : result (list (list nat)) :=
  let tokenizer_chars := get_tokenizer_chars tokenizer in
  let texts := keep_chars tokenizer_chars <$> texts in
  starts ← PyLib.range 0 (Z.of_nat (length texts)) batch_size;
  Ok (concat ((λ start,
                 input_ids tokenizer
                   (PyLib.slice texts start (start + batch_size)%Z))
              <$> starts)).

End Tokenize.

(** ** Reading the examples, [run_preprocessing_small_test.py] lines 26-43 *)

(** A row of the translation data set, and of the frame that
    [read_examples] returns: the columns [id], [java], [cs]. *)
Record Example : Type := {
  example_id : Z;
  example_java : string;
  example_cs : string
}.

Section ReadExamples.

(** [load_dataset(path, split=split)]: the rows of a split, or the
    exception of a split that does not exist. *)
Context (load_dataset : string → string → result (list Example)).

(** [read_examples(split, max_examples)]: [max_examples] is [None] or an
    integer; [dataset.select(range(k))] keeps the first [k] rows. *)
Definition read_examples (split : string) (max_examples : option Z)
  : result (list Example) :=
  let split :=
    if bool_decide (split = "valid") || bool_decide (split = "dev")
    then "validation" else split in
  dataset ← load_dataset "code_x_glue_cc_code_to_code_trans" split;
  let dataset :=
    match max_examples with
    | Some m =>
        if bool_decide (m ≠ 0%Z)
        then take (Z.to_nat (Z.min m (Z.of_nat (length dataset)))) dataset
        else dataset
    | None => dataset
    end in
  Ok ((λ example,
         {| example_id := example_id example;
            example_java := example_java example;
            example_cs := example_cs example |}) <$> dataset).

End ReadExamples.

(** ** Python numbers as text *)

Module PyFormat.

(** The float values that the setup tracker formats are quotients of
    small integers by powers of two and their multiples by 100: binary
    floating point holds them exactly, so they are rationals here. *)

(** [int(x)] of a float: truncation towards zero. *)
Definition int (q : Q) : Z := Z.quot (Qnum q) (Zpos (Qden q)).

(** The integer nearest to a rational that is not negative, the even one
    of two that are equally near: the rounding of the [f] format. *)
Definition round_half_even (q : Q) : Z :=
  let n := Qnum q in
  let d := Zpos (Qden q) in
  let floor := (n / d)%Z in
  match (2 * (n - floor * d) ?= d)%Z with
  | Lt => floor
  | Gt => (floor + 1)%Z
  | Eq => if Z.even floor then floor else (floor + 1)%Z
  end.

(** [str(n)] for an integer that is not negative *)
Definition decimal (n : Z) : string :=
  NilZero.string_of_uint (N.to_uint (Z.to_N n)).

(** [s.rjust(width, '0')] *)
Definition zero_fill (width : nat) (s : string) : string :=
  String.concat EmptyString (repeat "0" (width - String.length s)) +:+ s.

(** [f"{x:.{digits}f}"] for a float [x] that is not negative. *)
Definition format_f (digits : nat) (q : Q) : string :=
  let scaled := round_half_even (q * inject_Z (10 ^ Z.of_nat digits)) in
  let all_digits := zero_fill (S digits) (decimal scaled) in
  let whole := String.length all_digits - digits in
  match digits with
  | 0 => all_digits
  | _ => PyStr.take whole all_digits +:+ "." +:+ PyStr.drop whole all_digits
  end.

(** [c.isspace()]: the characters of category Zs or of bidirectional
    class WS, B or S. *)
Definition is_space (c : N) : bool :=
  (N.leb 9 c && N.leb c 13) || (N.leb 28 c && N.leb c 32)
  || N.eqb c 133 || N.eqb c 160 || N.eqb c 5760
  || (N.leb 8192 c && N.leb c 8202)
  || N.eqb c 8232 || N.eqb c 8233 || N.eqb c 8239 || N.eqb c 8287
  || N.eqb c 12288.

(** [s.lstrip()] *)
Fixpoint lstrip (s : Tokenize.Text) : Tokenize.Text :=
  match s with
  | [] => []
  | c :: s' => if is_space c then lstrip s' else s
  end.

(** [s.strip()] *)
Definition strip (s : Tokenize.Text) : Tokenize.Text :=
  reverse (lstrip (reverse (lstrip s))).

End PyFormat.

(** ** The setup tracker, [check_setup.py] *)

Module Setup.

(** What the checks observe of the machine: the outcome of
    [uv --version] (return code and output, or [None] when the program is
    not found), the paths that exist, the two prefixes of the
    interpreter, the packages that can be imported, the [*.pkl] files of
    a directory, and the size of a file in bytes. *)
Record Env : Type := {
  uv_run : option (Z * Tokenize.Text);
  path_exists : string → bool;
  sys_prefix : string;
  sys_base_prefix : string;
  importable : string → bool;
  glob_pkl : string → list string;
  st_size : string → Z
}.

(** [Path(dir) / file] for the relative names of the script *)
Definition path_join (dir file : string) : string := dir +:+ "/" +:+ file.

(** [check_uv()] (lines 32-42) *)
Definition check_uv (env : Env) : bool * option Tokenize.Text :=
  match uv_run env with
  | Some (returncode, stdout) =>
      if bool_decide (returncode = 0%Z)
      then (true, Some (PyFormat.strip stdout))
      else (false, None)
  | None => (false, None)
  end.

(** [check_venv()] (lines 45-50) *)
Definition check_venv (env : Env) : bool * bool :=
  let exists_ := path_exists env ".venv" in
  let activated := bool_decide (sys_prefix env ≠ sys_base_prefix env) in
  (exists_, activated).

(** [check_packages()] (lines 53-74): the dictionary [installed] in the
    order of its insertions. *)
Definition check_packages (env : Env) : list (string * bool) :=
  let packages :=
    [("torch", "PyTorch"); ("transformers", "Transformers");
     ("datasets", "Datasets"); ("tree_sitter", "Tree-sitter");
     ("numpy", "NumPy"); ("scipy", "SciPy"); ("sklearn", "Scikit-learn");
     ("tqdm", "TQDM")] in
  (λ entry : string * string, (entry.2, importable env entry.1))
    <$> packages.

(** [check_parser()] (lines 77-92) *)
Definition check_parser (env : Env) : list (string * (bool * string)) :=
  let parser_dir := "parser" in
  let files_needed :=
    [("my-languages.so", "Compiled parser (primary)");
     ("my-languages2.so", "Compiled parser (alternate)");
     ("DFG.py", "Data flow graph extraction");
     ("utils.py", "Parser utilities")] in
  (λ entry : string * string,
     (entry.1, (path_exists env (path_join parser_dir entry.1), entry.2)))
    <$> files_needed.

(** [check_directories()] (lines 95-107) *)
Definition check_directories (env : Env) : list (string * (bool * string)) :=
  let dirs_needed :=
    [("saved_models/pretrain", "Pretrained model storage");
     ("data", "Preprocessed data");
     ("results", "Experiment results")] in
  (λ entry : string * string,
     (entry.1, (path_exists env entry.1, entry.2)))
    <$> dirs_needed.

(** [check_model()] (lines 110-116) *)
Definition check_model (env : Env) : bool * option string :=
  let model_path := "saved_models/pretrain/checkpoint_best_at_175000.bin" in
  if path_exists env model_path then
    let size_mb :=
      (inject_Z (st_size env model_path) / inject_Z (1024 * 1024))%Q in
    (true, Some (PyFormat.format_f 1 size_mb +:+ " MB"))
  else (false, None).

(** [check_data()] (lines 119-137); the names of the data sets stand for
    their descriptions. *)
Definition check_data (env : Env) : list (string * (bool * string)) :=
  let data_dir := "data" in
  let datasets :=
    [("codexglue_translation", "Java-C# translation");
     ("codexglue_generation", "Text-to-code (Concode)");
     ("apps_generation", "APPS dataset")] in
  (λ entry : string * string,
     let dataset_path := path_join data_dir entry.1 in
     let has_files :=
       if path_exists env dataset_path
       then bool_decide (0 < length (glob_pkl env dataset_path))
       else false in
     (entry.1, (has_files, entry.2)))
    <$> datasets.

(** [calculate_progress()] (lines 140-178) *)
Definition calculate_progress (env : Env) : Q :=
  let total_steps := 8%Z in
  let completed := 0%Z in
  let completed :=
    if (check_uv env).1 then (completed + 1)%Z else completed in
  let completed :=
    if (check_venv env).1 then (completed + 1)%Z else completed in
  let completed :=
    if forallb id (check_packages env).*2
    then (completed + 1)%Z else completed in
  let completed :=
    if forallb id (check_parser env).*2.*1
    then (completed + 1)%Z else completed in
  let completed :=
    if forallb id (check_directories env).*2.*1
    then (completed + 1)%Z else completed in
  let completed :=
    if (check_model env).1 then (completed + 1)%Z else completed in
  let completed :=
    if existsb id (check_data env).*2.*1
    then (completed + 1)%Z else completed in
  let completed :=
    if path_exists env "test_dfg_extraction.py"
    then (completed + 1)%Z else completed in
  (inject_Z completed / inject_Z total_steps * 100)%Q.

(** The percentage that [main()] prints twice,
    [f"{progress:.0f}"] (lines 187, 192). *)
Definition shown_progress (env : Env) : string :=
  PyFormat.format_f 0 (calculate_progress env).

(** The cells of the progress bar *)
Inductive Cell : Type := Full | Light.

(** [filled = int(progress / 5)] (line 190) *)
Definition filled (env : Env) : Z :=
  PyFormat.int (calculate_progress env / 5).

(** [bar = "#" * filled + "." * (20 - filled)] with the two block
    characters of the script (line 191); a sequence repeated a negative
    number of times is empty. *)
Definition bar (env : Env) : list Cell :=
  repeat Full (Z.to_nat (filled env))
  ++ repeat Light (Z.to_nat (20 - filled env)).

(** The value that [main()] returns, [int(progress)] (line 327). *)
Definition returned_progress (env : Env) : Z :=
  PyFormat.int (calculate_progress env).


End Setup.

(** ** The availability check of [test_dfg_extraction.py] *)

Module TestDfg.

(** [check_parser_availability()] (lines 17-39), on the paths that
    exist. *)
Definition check_parser_availability (path_exists : string → bool) : bool :=
  let parser_dir := "parser" in
  let required_files :=
    ["my-languages.so"; "my-languages2.so"; "DFG.py"; "utils.py"] in
  let missing :=
    filter (λ file, ¬ path_exists (Setup.path_join parser_dir file))
           required_files in
  if bool_decide (missing ≠ []) then false else true.

End TestDfg.

(** ** Loading Concode, [test_concode_small.py] *)

Module Concode.

(** An example of the data set, with its two columns that are read. *)
Record Example : Type := { nl : Tokenize.Text; code : Tokenize.Text }.

(** A row [[idx, nl, code]] of the frame with the columns [id], [nl] and
    [java]. *)
Record Row : Type := {
  row_id : nat;
  row_nl : Tokenize.Text;
  row_java : Tokenize.Text
}.

(** [str(n)] of an integer *)
Definition str (n : Z) : string := NilZero.string_of_int (Z.to_int n).

(** The line feed *)
Definition line_feed : N := 10.

Section ReadExamples.

(** [datasets.load_dataset], on the name of the data set and the split,
    and [remove_comments_and_docstrings] of the parser package, on a code
    and a language. *)
Context (load_dataset : string → string → result (list Example))
        (remove_comments_and_docstrings :
           Tokenize.Text → string → result Tokenize.Text).

(** The split that [read_examples] (lines 24-31) asks for. *)
Definition split_argument (split : string) (max_examples : option Z)
  : string :=
  let split :=
    if bool_decide (split ∈ ["valid"; "validation"]) then "validation"
    else split in
  match max_examples with
  | Some m =>
      if bool_decide (m ≠ 0%Z)
      then split +:+ "[:" +:+ str m +:+ "]"
      else split
  | None => split
  end.

(** The body of the loop of [read_examples] (lines 35-39) *)
Definition read_example (idx : nat) (example : Example) : result Row :=
  let nl := PyFormat.strip (nl example) in
  let code := PyFormat.strip (code example) in
  cleaned ← remove_comments_and_docstrings code "java";
  if bool_decide (code = cleaned) then
    if bool_decide (line_feed ∉ code) then
      Ok {| row_id := idx; row_nl := nl; row_java := code |}
    else Raise AssertionError
  else Raise AssertionError.

(** [read_examples] (lines 22-42) *)
Definition read_examples (split : string) (max_examples : option Z)
  : result (list Row) :=
  dataset ← load_dataset "google/code_x_glue_tc_text_to_code"
                         (split_argument split max_examples);
  mapM id (imap read_example dataset).

End ReadExamples.

End Concode.

(** ** More inputs for the pipeline *)

Module MoreExamples.

(** A builder that returns one edge with a relation label that the
    pipeline does not know. *)
Definition mislabelled_parser (root_node : SyntaxNode) : ParserPair :=
  {| parse := λ _, root_node;
     build := λ _ _ _,
       Ok (edge_to_py <$> [Edge "y" 11 "dependsOn" ["x"] [3]], ∅) |}.

(** A tokenizer with four tokens, which decode to [a], [b], the
    replacement character and [ab], and which encodes a text by its code
    points. *)
Definition toy_tokenizer : Tokenize.Tokenizer :=
  {| Tokenize.vocab_size := 4;
     Tokenize.decode := λ i,
       match i with
       | 0 => [97%N]
       | 1 => [98%N]
       | 2 => [Tokenize.replacement_character]
       | _ => [97%N; 98%N]
       end;
     Tokenize.input_ids := λ batch : list Tokenize.Text,
       (λ text : Tokenize.Text, N.to_nat <$> text) <$> batch |}.

(** The texts [axb], [b] and the empty text. *)
Definition toy_texts : list Tokenize.Text :=
  [[97%N; 120%N; 98%N]; [98%N]; []].

(** A split of three rows. *)
Definition toy_dataset : list Example :=
  [ {| example_id := 0; example_java := "int a;"; example_cs := "int a;" |};
    {| example_id := 1; example_java := "int b;"; example_cs := "int b;" |};
    {| example_id := 2; example_java := "int c;"; example_cs := "int c;" |} ].

Definition toy_load_dataset (path split : string) : result (list Example) :=
  if bool_decide (split = "validation") then Ok toy_dataset
  else Raise (OtherError "ValueError").

(** A split of Concode with two examples of one line, and a comment
    remover for codes without comments. *)
Definition concode_split : list Concode.Example :=
  [ {| Concode.nl := [32; 97; 100; 100]; Concode.code := [97; 43; 98; 59; 10] |};
    {| Concode.nl := [103; 101; 116]; Concode.code := [9; 120; 59] |} ]%N.

Definition concode_load_dataset (path split : string)
  : result (list Concode.Example) :=
  if bool_decide (split = "train[:10]") then Ok concode_split
  else Raise (OtherError "ValueError").

Definition no_comments (code : Tokenize.Text) (lang : string)
  : result Tokenize.Text := Ok code.

End MoreExamples.

(** ** Vocabulary of the properties *)

(** The assertion of [extract_structure] on one edge. *)
Definition valid_relation (d : DFGEdge) : Prop :=
  edge_rel d = "comesFrom" ∨ edge_rel d = "computedFrom".

(** The condition [len(d[4])>0] of the assembler on one edge. *)
Definition has_sources (d : DFGEdge) : Prop := edge_src_idxs d ≠ [].

(** The pair [(d[1], d[4])] of an edge. *)
Definition entry_of (d : DFGEdge) : nat * list nat :=
  (edge_idx d, edge_src_idxs d).

(** The tags listed by the specification. *)
Definition language_tags : list string :=
  ["python"; "java"; "c_sharp"; "javascript"; "php"; "ruby"; "go"].

(** The verbatim text of the source between the two points of a span that
    ends on a later row than it starts: the pieces that
    [index_to_code_token] concatenates, with the line breaks between them. *)
Definition source_text (index : Span) (code_lines : list string)
  : option string :=
  let '(start, end_) := index in
  first_line ← code_lines !! start.1;
  middle ← mapM (λ i, code_lines !! i) (seq (S start.1) (end_.1 - S start.1));
  last_line ← code_lines !! end_.1;
  Some (PyStr.drop start.2 first_line
        +:+ String PyStr.newline
              (PyStr.join ((λ l, l +:+ String PyStr.newline EmptyString)
                           <$> middle)
               +:+ PyStr.take end_.2 last_line)).



(** The eight conditions that the setup tracker counts, each on what
    the machine shows: the installer answers with return code 0, the
    [.venv] path exists, the eight packages can be imported, the four
    parser files exist, the three directories exist, the checkpoint
    exists, one of the three data directories exists and holds a [.pkl]
    file, the test script exists. *)
Definition satisfied_steps (env : Setup.Env) : list bool :=
  [ match Setup.uv_run env with
    | Some (0%Z, _) => true
    | _ => false
    end;
    Setup.path_exists env ".venv";
    forallb (Setup.importable env)
      ["torch"; "transformers"; "datasets"; "tree_sitter"; "numpy"; "scipy";
       "sklearn"; "tqdm"];
    forallb (Setup.path_exists env)
      ["parser/my-languages.so"; "parser/my-languages2.so"; "parser/DFG.py";
       "parser/utils.py"];
    forallb (Setup.path_exists env)
      ["saved_models/pretrain"; "data"; "results"];
    Setup.path_exists env
      "saved_models/pretrain/checkpoint_best_at_175000.bin";
    existsb
      (λ dir, Setup.path_exists env dir
              && negb (Nat.eqb (length (Setup.glob_pkl env dir)) 0))
      ["data/codexglue_translation"; "data/codexglue_generation";
       "data/apps_generation"];
    Setup.path_exists env "test_dfg_extraction.py" ].

(** The codes that [read_examples] of [test_concode_small.py] accepts:
    stripped, the comment remover leaves the code as it is, and the code
    has no line feed. *)
Definition accepted_code
    (remove_comments_and_docstrings :
       Tokenize.Text → string → result Tokenize.Text)
    (example : Concode.Example) : Prop :=
  let code := PyFormat.strip (Concode.code example) in
  remove_comments_and_docstrings code "java" = Ok code
  ∧ Concode.line_feed ∉ code.

(** The row of the example at a position. *)
Definition row_of (idx : nat) (example : Concode.Example) : Concode.Row :=
  {| Concode.row_id := idx;
     Concode.row_nl := PyFormat.strip (Concode.nl example);
     Concode.row_java := PyFormat.strip (Concode.code example) |}.

(** The number of conditions that hold. *)
Definition count_true (conditions : list bool) : nat :=
  length (filter (λ b, b = true) conditions).

(** * Properties *)

(** One step of a computation that may raise: the case that raises is
    closed, the proof goes on with the value. *)
Ltac step_ok m x :=
  destruct m as [x|]; [|done]; cbn [mbind result_bind option_bind].

(** ** The graph assembler *)

Lemma length_pos_nonempty {A} (l : list A) : 0 < length l ↔ l ≠ [].
Proof. destruct l; simpl; split; (lia || congruence || done). Qed.

Lemma assemble_edges_filter (DFG : list DFGEdge) :
  assemble_edges DFG = entry_of <$> filter has_sources DFG.
Proof.
  unfold assemble_edges. f_equal.
  induction DFG as [|d DFG IH]; [done|].
  rewrite !filter_cons, IH.
  destruct (decide (0 < length (edge_src_idxs d))) as [Hd|Hd],
    (decide (has_sources d)) as [Hs|Hs]; try done;
    unfold has_sources in Hs; rewrite <- length_pos_nonempty in Hs; done.
Qed.

(** On edges of the documented shape the comprehension of line 79 never
    raises and computes [assemble_edges]. *)
Lemma assemble_edge_list (DFG : list DFGEdge) :
  assemble (edge_to_py <$> DFG) = Ok (entry_to_py <$> assemble_edges DFG).
Proof.
  unfold assemble_edges.
  induction DFG as [|d DFG IH]; [done|].
  rewrite fmap_cons, filter_cons. cbn [assemble].
  cbn [edge_to_py py_getitem lookup list_lookup mbind result_bind py_len].
  rewrite length_fmap.
  destruct (decide (0 < length (edge_src_idxs d))) as [Hd|Hd].
  - rewrite bool_decide_eq_true_2 by done. rewrite IH. done.
  - rewrite bool_decide_eq_false_2 by done. exact IH.
Qed.

Lemma assert_relations_edge_list (DFG : list DFGEdge) :
  Forall valid_relation DFG → assert_relations (edge_to_py <$> DFG) = Ok ().
Proof.
  induction 1 as [|d DFG Hd _ IH]; [done|].
  rewrite fmap_cons. cbn [assert_relations].
  cbn [edge_to_py py_getitem lookup list_lookup mbind result_bind py_eq_str].
  destruct Hd as [-> | ->]; exact IH.
Qed.

Lemma assemble_edges_has_sources (DFG : list DFGEdge) :
  Forall (λ p, p.2 ≠ []) (assemble_edges DFG).
Proof.
  rewrite assemble_edges_filter. apply Forall_fmap, Forall_forall.
  intros d [Hd _]%list_elem_of_filter. exact Hd.
Qed.

(** Every entry of an assembled list is a pair, which has no position 4. *)
Lemma assemble_output_pairs (DFG out : list PyVal) :
  assemble DFG = Ok out →
  Forall (λ v, ∃ d1 d4, v = PyTuple [d1; d4]) out.
Proof.
  revert out. induction DFG as [|d DFG IH]; intros out.
  - intros [= <-]. constructor.
  - cbn [assemble].
    step_ok (py_getitem d 4) d4. step_ok (py_len d4) n.
    destruct (bool_decide (0 < n)); [|by apply IH].
    step_ok (py_getitem d 1) d1. step_ok (assemble DFG) final.
    intros [= <-]. constructor; [by eexists _, _ | by apply IH].
Qed.

(** C3, as stated, fails: the entry kept for an edge with sources is the
    pair [(d[1], d[4])], not the edge itself. *)
Lemma assemble_output_is_not_the_edges :
  let DFG := [Edge "y" 3 "comesFrom" ["x"] [0]] in
  filter has_sources DFG = DFG
  ∧ assemble (edge_to_py <$> DFG) = Ok [PyTuple [PyInt 3; PyList [PyInt 0]]]
  ∧ assemble (edge_to_py <$> DFG)
    ≠ Ok (edge_to_py <$> filter has_sources DFG).
Proof. repeat split; discriminate. Qed.

(** C3, amended: for every raw edge sequence the assembler returns,
    without raising and as a function of that sequence alone, the
    projection to (defined token index, source token indices) of exactly
    the edges whose source index list is non-empty, in the order of the
    input; no entry of the output has an empty source list. *)
Theorem assemble_keeps_edges_with_sources (DFG : list DFGEdge) :
  assemble (edge_to_py <$> DFG)
  = Ok (entry_to_py <$> (entry_of <$> filter has_sources DFG))
  ∧ entry_of <$> filter has_sources DFG `sublist_of` entry_of <$> DFG
  ∧ Forall (λ p, p.2 ≠ []) (entry_of <$> filter has_sources DFG).
Proof.
  rewrite <- assemble_edges_filter. split; [apply assemble_edge_list|]. split.
  - rewrite assemble_edges_filter. apply fmap_sublist, sublist_filter.
  - apply assemble_edges_has_sources.
Qed.

(** C7, as stated, fails: a second run on a non-empty output raises,
    because the entries of the output are pairs. *)
Lemma assemble_twice_raises :
  let DFG := edge_to_py <$> [Edge "y" 3 "comesFrom" ["x"] [0]] in
  assemble DFG = Ok [PyTuple [PyInt 3; PyList [PyInt 0]]]
  ∧ assemble [PyTuple [PyInt 3; PyList [PyInt 0]]] = Raise IndexError.
Proof. split; reflexivity. Qed.

(** C7, amended: what is idempotent is the filter of the assembler: the
    entries of an assembled list all have sources, so filtering them on
    their source list again changes nothing.  The assembler itself can be
    run on its own output only when that output is empty; otherwise the
    second run raises [IndexError]. *)
Theorem assemble_filter_idempotent (DFG : list DFGEdge) (out : list PyVal) :
  assemble (edge_to_py <$> DFG) = Ok out →
  out = entry_to_py <$> assemble_edges DFG
  ∧ filter (λ p, 0 < length p.2) (assemble_edges DFG) = assemble_edges DFG
  ∧ assemble out = match out with [] => Ok [] | _ => Raise IndexError end.
Proof.
  intros Hout. split; [|split].
  - rewrite assemble_edge_list in Hout. congruence.
  - pose proof (assemble_edges_has_sources DFG) as H.
    induction H as [|p l Hp _ IH]; [done|].
    rewrite filter_cons, IH.
    apply length_pos_nonempty in Hp. by rewrite decide_True.
  - apply assemble_output_pairs in Hout.
    destruct Hout as [|v out (d1 & d4 & ->) _]; reflexivity.
Qed.

(** The theorem on a list of two edges, one of them without sources. *)
Lemma assemble_filter_idempotent_witness :
  let DFG := [Edge "x" 0 "comesFrom" [] []; Edge "y" 3 "comesFrom" ["x"] [0]] in
  let out := [PyTuple [PyInt 3; PyList [PyInt 0]]] in
  out = entry_to_py <$> assemble_edges DFG
  ∧ filter (λ p, 0 < length p.2) (assemble_edges DFG) = assemble_edges DFG
  ∧ assemble out = Raise IndexError.
Proof.
  exact (assemble_filter_idempotent
           [Edge "x" 0 "comesFrom" [] []; Edge "y" 3 "comesFrom" ["x"] [0]]
           [PyTuple [PyInt 3; PyList [PyInt 0]]] eq_refl).
Defined.

(** ** What [extract_structure] hands to the pipeline *)

Section ExtractStructureProperties.

Context (tree_to_token_nodes : SyntaxNode → list SyntaxNode)
        (index_to_code_token : Span → list string → result string).

Lemma extract_structure_unfold code parser code_tokens :
  let root_node := parse parser code in
  let tokens_index := span_of <$> tree_to_token_nodes root_node in
  mapM (λ x, index_to_code_token x (PyStr.split code)) tokens_index
  = Ok code_tokens →
  extract_structure tree_to_token_nodes index_to_code_token code parser
  = (let DFG :=
       match build parser root_node
               (index_to_code_of tokens_index code_tokens) ∅ with
       | Ok (DFG, _) => DFG
       | Raise _ => []
       end in
     _ ← assert_relations DFG;
     DFG ← assemble DFG;
     Ok (code_tokens, tree_to_token_nodes root_node, DFG)).
Proof.
  cbv zeta. intros H. unfold extract_structure. cbv zeta. rewrite H.
  reflexivity.
Qed.

(** C9: once the tokens of the leaves are read, the DFG that
    [extract_structure] returns is
    - empty when the call of the builder raises, whatever the exception;
    - otherwise, for a builder that returns edges of the documented shape
      with one of the two relation labels, the list of the pairs
      (defined token index, source token indices) of the edges whose
      source index list is non-empty, in the order of the builder: the
      names and the relation label of an edge are not part of it. *)
Theorem extract_structure_dfg code parser code_tokens :
  let root_node := parse parser code in
  let tokens_index := span_of <$> tree_to_token_nodes root_node in
  let index_to_code := index_to_code_of tokens_index code_tokens in
  let extracted DFG : result (list string * list SyntaxNode * list PyVal) :=
    Ok (code_tokens, tree_to_token_nodes root_node, DFG) in
  mapM (λ x, index_to_code_token x (PyStr.split code)) tokens_index
  = Ok code_tokens →
  (∀ e, build parser root_node index_to_code ∅ = Raise e →
     extract_structure tree_to_token_nodes index_to_code_token code parser
     = extracted [])
  ∧ (∀ edges states,
       build parser root_node index_to_code ∅
       = Ok (edge_to_py <$> edges, states) →
       Forall valid_relation edges →
       extract_structure tree_to_token_nodes index_to_code_token code parser
       = extracted (entry_to_py <$> (entry_of <$> filter has_sources edges))).
Proof.
  cbv zeta. intros Htokens.
  rewrite (extract_structure_unfold _ _ _ Htokens). split.
  - intros e ->. reflexivity.
  - intros edges states -> Hrel. cbv zeta.
    rewrite (assert_relations_edge_list _ Hrel). cbn [mbind result_bind].
    rewrite assemble_edge_list, assemble_edges_filter. reflexivity.
Qed.

End ExtractStructureProperties.

(** The theorem on the branch program, once with a builder that raises
    and once with the Python builder. *)
Lemma extract_structure_dfg_witness :
  extract_structure Utils.tree_to_token_nodes Examples.index_to_code_token
    Examples.branch_code (Examples.failing_parser Examples.branch_tree)
  = Ok (["if"; "cond"; ":"; "x"; "="; "1"; "else"; ":"; "x"; "="; "2";
         "y"; "="; "x"],
        Utils.tree_to_token_nodes Examples.branch_tree, [])
  ∧ extract_structure Utils.tree_to_token_nodes Examples.index_to_code_token
      Examples.branch_code (Examples.python_parser Examples.branch_tree)
    = Ok (["if"; "cond"; ":"; "x"; "="; "1"; "else"; ":"; "x"; "="; "2";
           "y"; "="; "x"],
          Utils.tree_to_token_nodes Examples.branch_tree,
          [PyTuple [PyInt 11; PyList [PyInt 3; PyInt 8]]]).
Proof.
  split.
  - refine (proj1 (extract_structure_dfg Utils.tree_to_token_nodes
      Examples.index_to_code_token Examples.branch_code
      (Examples.failing_parser Examples.branch_tree) _ _)
      (OtherError "builder failed") _);
      [vm_compute; reflexivity | reflexivity].
  - refine (proj2 (extract_structure_dfg Utils.tree_to_token_nodes
      Examples.index_to_code_token Examples.branch_code
      (Examples.python_parser Examples.branch_tree) _ _)
      [Edge "x" 3 "comesFrom" [] []; Edge "x" 8 "comesFrom" [] [];
       Edge "y" 11 "comesFrom" ["x"] [3; 8]]
      (list_to_map [("x", [3; 8]); ("y", [11])]) _ _).
    + vm_compute; reflexivity.
    + vm_compute; reflexivity.
    + repeat constructor.
Defined.

(** ** The language dispatch *)

Lemma dfg_function_lookup (lang : string) :
  dfg_function !! lang =
    if decide (lang = "python") then Some DFG_python
    else if decide (lang = "java") then Some DFG_java
    else if decide (lang = "cs") then Some DFG_csharp
    else if decide (lang = "c_sharp") then Some DFG_csharp
    else None.
Proof.
  unfold dfg_function. cbn [list_to_map foldr uncurry fst snd].
  repeat (case_decide; [subst; by simplify_map_eq|]).
  by simplify_map_eq.
Qed.

Lemma dfg_function_registered (lang : string) :
  is_Some (dfg_function !! lang)
  ↔ lang ∈ ["python"; "java"; "cs"; "c_sharp"].
Proof.
  rewrite dfg_function_lookup, !elem_of_cons, elem_of_nil.
  repeat case_decide; subst.
  1-4: split; [intros _; auto 6 | intros _; by eexists].
  split; [intros [? [=]] | intuition congruence].
Qed.

Lemma dispatch_registered (lang : string) (f : DFGFunction) :
  dfg_function !! lang = Some f → ∃ g, dispatch lang = Ok (g, f).
Proof.
  rewrite dfg_function_lookup. intros Hf.
  repeat case_decide; simplify_eq; by eexists.
Qed.

Lemma dispatch_unregistered (lang : string) :
  dfg_function !! lang = None → ∃ e, dispatch lang = Raise e.
Proof.
  intros Hf. unfold dispatch. rewrite Hf.
  destruct (Language _); cbn [mbind result_bind]; by eexists.
Qed.

(** C6, as stated, fails: JavaScript is one of the listed tags and its
    grammar is compiled into the library, but no builder is registered for
    it, and the dispatch raises. *)
Lemma dispatch_javascript_not_registered :
  "javascript" ∈ language_tags
  ∧ Language "javascript" = Ok "javascript"
  ∧ dfg_function !! "javascript" = None
  ∧ dispatch "javascript" = Raise KeyError.
Proof. split; [|by vm_compute]. unfold language_tags. set_solver. Qed.

(** C6, amended: the dispatch maps exactly the tags [python], [java],
    [cs] and [c_sharp] to a builder function ([cs] and [c_sharp] both to
    the C# one, on the grammar [c_sharp]); it fails exactly when the tag
    has no registered builder, and for the listed tags [javascript],
    [php], [ruby] and [go], which have none, with [KeyError]. *)
Theorem dispatch_registered_tags (lang : string) :
  ((∃ e, dispatch lang = Raise e) ↔ dfg_function !! lang = None)
  ∧ ((∃ r, dispatch lang = Ok r)
     ↔ lang ∈ ["python"; "java"; "cs"; "c_sharp"])
  ∧ dispatch "python" = Ok ("python", DFG_python)
  ∧ dispatch "java" = Ok ("java", DFG_java)
  ∧ dispatch "cs" = Ok ("c_sharp", DFG_csharp)
  ∧ dispatch "c_sharp" = Ok ("c_sharp", DFG_csharp)
  ∧ Forall (λ tag, dispatch tag = Raise KeyError)
      ["javascript"; "php"; "ruby"; "go"].
Proof.
  split; [|split].
  - split; [|apply dispatch_unregistered]. intros [e He].
    destruct (dfg_function !! lang) as [f|] eqn:Hf; [|done].
    destruct (dispatch_registered _ _ Hf) as [g Hg]. congruence.
  - rewrite <- dfg_function_registered. split.
    + intros [r Hr]. destruct (dfg_function !! lang) eqn:Hf; [done|].
      destruct (dispatch_unregistered _ Hf) as [e He]. congruence.
    + intros [f Hf]. destruct (dispatch_registered _ _ Hf) as [g Hg].
      by eexists.
  - repeat split; try (by vm_compute). repeat constructor.
Qed.

(** Without a builder for the tag [add_structure] processes no row. *)
Lemma add_structure_unregistered tree_to_token_nodes index_to_code_token
    parser_of builder_of (data_lang : list string) (lang : string) :
  dfg_function !! lang = None →
  ∃ e, add_structure tree_to_token_nodes index_to_code_token parser_of
         builder_of data_lang lang = Raise e.
Proof.
  intros [e He]%dispatch_unregistered. exists e.
  unfold add_structure. by rewrite He.
Qed.

(** ** The text of a token that spans several rows *)

Lemma str_app_cons c (s t : string) : String c s +:+ t = String c (s +:+ t).
Proof. reflexivity. Qed.

Lemma str_app_nil_l (t : string) : EmptyString +:+ t = t.
Proof. reflexivity. Qed.

Lemma str_app_nil_r (s : string) : s +:+ EmptyString = s.
Proof. induction s as [|c s IH]; [done|]. by rewrite str_app_cons, IH. Qed.

Lemma str_app_assoc (s t u : string) : (s +:+ t) +:+ u = s +:+ t +:+ u.
Proof.
  induction s as [|c s IH]; [done|]. by rewrite !str_app_cons, IH.
Qed.

Lemma str_take_drop n (s : string) : PyStr.take n s +:+ PyStr.drop n s = s.
Proof.
  revert s. induction n as [|n IH]; intros [|c s]; try done.
  cbn [PyStr.take PyStr.drop]. by rewrite str_app_cons, IH.
Qed.

Lemma mem_app c (s t : string) :
  PyStr.mem c (s +:+ t) = PyStr.mem c s || PyStr.mem c t.
Proof.
  induction s as [|c' s IH]; [done|].
  rewrite str_app_cons. cbn [PyStr.mem]. rewrite IH. by rewrite orb_assoc.
Qed.

Lemma mem_take c n (s : string) :
  PyStr.mem c s = false → PyStr.mem c (PyStr.take n s) = false.
Proof.
  revert s. induction n as [|n IH]; intros [|c' s]; try done.
  cbn [PyStr.take PyStr.mem]. intros [-> H]%orb_false_elim. by rewrite IH.
Qed.

Lemma mem_drop c n (s : string) :
  PyStr.mem c s = false → PyStr.mem c (PyStr.drop n s) = false.
Proof.
  revert s. induction n as [|n IH]; intros [|c' s]; try done.
  cbn [PyStr.drop PyStr.mem]. intros [_ H]%orb_false_elim. by apply IH.
Qed.

Lemma mem_join c (ls : list string) :
  Forall (λ l, PyStr.mem c l = false) ls → PyStr.mem c (PyStr.join ls) = false.
Proof.
  induction 1 as [|l ls Hl _ IH]; [done|].
  cbn [PyStr.join]. by rewrite mem_app, Hl, IH.
Qed.

Lemma split_nonempty (s : string) : PyStr.split s ≠ [].
Proof.
  destruct s as [|c s]; [done|]. cbn [PyStr.split].
  destruct (Ascii.eqb c PyStr.newline); [done|].
  by destruct (PyStr.split s).
Qed.

(** No piece of [s.split('\n')] contains a line break. *)
Lemma split_newline_free (s : string) :
  Forall (λ l, PyStr.mem PyStr.newline l = false) (PyStr.split s).
Proof.
  induction s as [|c s IH]; [by repeat constructor|].
  cbn [PyStr.split]. destruct (Ascii.eqb c PyStr.newline) eqn:Hc.
  - by constructor.
  - destruct (PyStr.split s) as [|l ls] eqn:Hs; [by apply split_nonempty in Hs|].
    apply Forall_cons in IH as [Hl Hls]. constructor; [|done].
    cbn [PyStr.mem]. rewrite Ascii.eqb_sym, Hc. exact Hl.
Qed.

Lemma join_lines_cons (l : string) (ls : list string) :
  ls ≠ [] →
  PyStr.join_lines (l :: ls) = l +:+ String PyStr.newline (PyStr.join_lines ls).
Proof. by destruct ls. Qed.

(** ['\n'.join(s.split('\n')) == s] *)
Lemma join_lines_split (s : string) : PyStr.join_lines (PyStr.split s) = s.
Proof.
  induction s as [|c s IH]; [done|].
  cbn [PyStr.split]. destruct (Ascii.eqb c PyStr.newline) eqn:Hc.
  - apply Ascii.eqb_eq in Hc as ->.
    rewrite join_lines_cons by apply split_nonempty. by rewrite IH.
  - destruct (PyStr.split s) as [|l ls] eqn:Hs; [by apply split_nonempty in Hs|].
    rewrite <- IH. destruct ls; [done|].
    rewrite !join_lines_cons by done. by rewrite str_app_cons.
Qed.

Lemma join_lines_app_cons (ls : list string) (l : string) (rest : list string) :
  PyStr.join_lines (ls ++ l :: rest)
  = PyStr.join ((λ l, l +:+ String PyStr.newline EmptyString) <$> ls)
    +:+ PyStr.join_lines (l :: rest).
Proof.
  induction ls as [|l' ls IH]; [done|].
  rewrite <- app_comm_cons, join_lines_cons by (by destruct ls).
  rewrite IH, fmap_cons. cbn [PyStr.join].
  by rewrite !str_app_assoc, str_app_cons, str_app_nil_l.
Qed.

(** The rows read by [for i in range(a, a + n)] are the [n] rows after the
    first [a]. *)
Lemma mapM_lookup_seq (code_lines : list string) (a n : nat)
    (middle : list string) :
  mapM (λ i, code_lines !! i) (seq a n) = Some middle →
  middle = take n (drop a code_lines) ∧ length middle = n.
Proof.
  revert a middle. induction n as [|n IH]; intros a middle.
  - intros [= <-]. by rewrite take_0.
  - cbn [seq mapM]. destruct (code_lines !! a) as [l|] eqn:Hl; [|done].
    cbn [mbind option_bind].
    destruct (mapM _ (seq (S a) n)) as [ls|] eqn:Hls; [|done].
    intros [= <-]. destruct (IH _ _ Hls) as [-> Hlen].
    rewrite (drop_S _ _ _ Hl). cbn [take length]. by rewrite Hlen.
Qed.

Lemma rows_of_span (code_lines : list string) (r1 r2 : nat)
    (first_line last_line : string) (middle : list string) :
  r1 < r2 →
  code_lines !! r1 = Some first_line →
  mapM (λ i, code_lines !! i) (seq (S r1) (r2 - S r1)) = Some middle →
  code_lines !! r2 = Some last_line →
  code_lines = take r1 code_lines
               ++ first_line :: middle ++ last_line :: drop (S r2) code_lines.
Proof.
  intros Hlt Hfirst [-> _]%mapM_lookup_seq Hlast.
  rewrite <- (drop_S _ _ _ Hlast).
  replace (drop r2 code_lines)
    with (drop (r2 - S r1) (drop (S r1) code_lines))
    by (rewrite drop_drop; f_equal; lia).
  by rewrite take_drop, <- (drop_S _ _ _ Hfirst), take_drop.
Qed.

(** The verbatim text of a span occurs in the joined lines. *)
Lemma source_text_occurs (code_lines : list string) (index : Span)
    (verbatim : string) :
  index.1.1 < index.2.1 →
  source_text index code_lines = Some verbatim →
  PyStr.occurs_in verbatim (PyStr.join_lines code_lines).
Proof.
  destruct index as [[r1 c1] [r2 c2]]. cbn [fst snd source_text].
  intros Hlt Hv.
  destruct (code_lines !! r1) as [first_line|] eqn:Hfirst; [|done].
  cbn [mbind option_bind] in Hv.
  destruct (mapM _ _) as [middle|] eqn:Hmid; [|done].
  cbn [mbind option_bind] in Hv.
  destruct (code_lines !! r2) as [last_line|] eqn:Hlast; [|done].
  injection Hv as <-.
  rewrite (rows_of_span _ _ _ _ _ _ Hlt Hfirst Hmid Hlast) at 1.
  rewrite join_lines_app_cons, join_lines_cons by (by destruct middle).
  rewrite join_lines_app_cons.
  set (before := PyStr.join (_ <$> take r1 code_lines)).
  set (between := PyStr.join (_ <$> middle)).
  assert (∃ after, PyStr.join_lines (last_line :: drop (S r2) code_lines)
                   = last_line +:+ after) as [after ->].
  { destruct (drop (S r2) code_lines) as [|l ls].
    - exists EmptyString. by rewrite str_app_nil_r.
    - eexists. by apply join_lines_cons. }
  exists (before +:+ PyStr.take c1 first_line),
         (PyStr.drop c2 last_line +:+ after).
  rewrite <- (str_take_drop c1 first_line) at 1.
  rewrite <- (str_take_drop c2 last_line) at 1.
  by rewrite !str_app_assoc, !str_app_cons, !str_app_assoc.
Qed.

(** C10, as stated, fails: the text stored for the two-row string literal
    of [multiline_code] is ['''ab'''], which occurs verbatim in the source
    (as its second string literal). *)
Lemma multiline_token_occurs_verbatim :
  Examples.multiline_leaf ∈ Utils.tree_to_token_index Examples.multiline_tree
  ∧ Examples.multiline_leaf.1.1 < Examples.multiline_leaf.2.1
  ∧ Utils.index_to_code_token Examples.multiline_leaf
      (PyStr.split Examples.multiline_code) = Some "'''ab'''"
  ∧ (∃ index_to_code,
       Utils.build_index_to_code
         (Utils.tree_to_token_index Examples.multiline_tree)
         (PyStr.split Examples.multiline_code) = Some index_to_code
       ∧ index_to_code !! Examples.multiline_leaf = Some (2, "'''ab'''"))
  ∧ PyStr.occurs_in "'''ab'''" Examples.multiline_code.
Proof.
  split; [cbn; set_solver|]. split; [cbn; lia|]. split; [reflexivity|].
  split; [eexists; split; by vm_compute|].
  exists (PyStr.join_lines ["x = '''a"; "b''' + "]), EmptyString.
  reflexivity.
Qed.

(** C10, amended: the text stored for a leaf that spans several rows is
    the tail of the first row from the start column, followed by every
    row in between, followed by the head of the last row up to the end
    column, with nothing inserted between the pieces.  It therefore
    contains no line break and differs from the verbatim text of its span,
    which occurs in the source and contains one.  (The stored text may
    still occur verbatim somewhere else in the source.) *)
Theorem multiline_token_text (code : string) (index : Span) (token : string) :
  let code_lines := PyStr.split code in
  let '(r1, c1, (r2, c2)) := index in
  r1 < r2 →
  Utils.index_to_code_token index code_lines = Some token →
  ∃ first_line middle last_line verbatim,
    code_lines !! r1 = Some first_line
    ∧ middle = take (r2 - S r1) (drop (S r1) code_lines)
    ∧ length middle = r2 - S r1
    ∧ code_lines !! r2 = Some last_line
    ∧ token = PyStr.drop c1 first_line +:+ PyStr.join middle
              +:+ PyStr.take c2 last_line
    ∧ PyStr.mem PyStr.newline token = false
    ∧ source_text index code_lines = Some verbatim
    ∧ PyStr.occurs_in verbatim code
    ∧ PyStr.mem PyStr.newline verbatim = true
    ∧ token ≠ verbatim.
Proof.
  destruct index as [[r1 c1] [r2 c2]]. cbv zeta. intros Hlt.
  unfold Utils.index_to_code_token, source_text. cbn [fst snd].
  rewrite decide_False by lia.
  destruct (PyStr.split code !! r1) as [first_line|] eqn:Hfirst; [|done].
  cbn [mbind option_bind].
  destruct (mapM _ _) as [middle|] eqn:Hmid; [|done].
  cbn [mbind option_bind].
  destruct (PyStr.split code !! r2) as [last_line|] eqn:Hlast; [|done].
  cbn [mbind option_bind]. intros [= <-].
  pose proof (split_newline_free code) as Hfree.
  assert (Hfree' := Hfree). rewrite Forall_lookup in Hfree'.
  assert (Htoken : PyStr.mem PyStr.newline
            (PyStr.drop c1 first_line +:+ PyStr.join middle
             +:+ PyStr.take c2 last_line) = false).
  { rewrite !mem_app.
    rewrite (mem_drop _ _ _ (Hfree' _ _ Hfirst)).
    rewrite (mem_take _ _ _ (Hfree' _ _ Hlast)).
    rewrite mem_join; [done|].
    destruct (mapM_lookup_seq _ _ _ _ Hmid) as [-> _].
    by apply Forall_take, Forall_drop. }
  assert (Hverbatim : PyStr.mem PyStr.newline
            (PyStr.drop c1 first_line
             +:+ String PyStr.newline
                   (PyStr.join ((λ l, l +:+ String PyStr.newline EmptyString)
                                <$> middle)
                    +:+ PyStr.take c2 last_line)) = true).
  { rewrite mem_app. cbn [PyStr.mem]. rewrite Ascii.eqb_refl.
    by rewrite orb_true_r. }
  destruct (mapM_lookup_seq _ _ _ _ Hmid) as [Hmiddle Hlen].
  eexists first_line, middle, last_line, _.
  repeat split; try done.
  - assert (Hsrc : source_text (r1, c1, (r2, c2)) (PyStr.split code)
                   = Some (PyStr.drop c1 first_line
             +:+ String PyStr.newline
                   (PyStr.join ((λ l, l +:+ String PyStr.newline EmptyString)
                                <$> middle)
                    +:+ PyStr.take c2 last_line))).
    { unfold source_text. cbn [fst snd]. by rewrite Hfirst, Hmid, Hlast. }
    apply source_text_occurs in Hsrc; [|done].
    by rewrite join_lines_split in Hsrc.
  - intros Heq. rewrite Heq in Htoken. congruence.
Qed.

(** The theorem on the two-row string literal of [multiline_code]. *)
Lemma multiline_token_text_witness :
  ∃ first_line middle last_line verbatim,
    PyStr.split Examples.multiline_code !! 0 = Some first_line
    ∧ middle = take (1 - 1) (drop 1 (PyStr.split Examples.multiline_code))
    ∧ length middle = 1 - 1
    ∧ PyStr.split Examples.multiline_code !! 1 = Some last_line
    ∧ "'''ab'''" = PyStr.drop 4 first_line +:+ PyStr.join middle
                   +:+ PyStr.take 4 last_line
    ∧ PyStr.mem PyStr.newline "'''ab'''" = false
    ∧ source_text Examples.multiline_leaf
        (PyStr.split Examples.multiline_code) = Some verbatim
    ∧ PyStr.occurs_in verbatim Examples.multiline_code
    ∧ PyStr.mem PyStr.newline verbatim = true
    ∧ "'''ab'''" ≠ verbatim.
Proof.
  apply (multiline_token_text Examples.multiline_code
           Examples.multiline_leaf "'''ab'''"); [lia | reflexivity].
Defined.

(** ** The builder *)

(** Induction on a syntax tree, with the hypothesis for every child. *)
Lemma SyntaxNode_children_ind (P : SyntaxNode → Prop) :
  (∀ kind s e cs, Forall P cs → P (Node kind s e cs)) → ∀ n, P n.
Proof.
  intros Hnode. fix IH 1. intros [kind s e cs]. apply Hnode.
  induction cs as [|c cs IHcs]; constructor; [apply IH | apply IHcs].
Qed.

Section BuilderProperties.

Context (table : DFG.PatternTable) (index_to_code : TokenIndex).

Abbreviation analyses := (DFG.analyses table index_to_code).

Lemma analyze_unfold kind s e cs states :
  DFG.analyze table index_to_code (Node kind s e cs) states =
    let subs := analyses cs in
    match table !! kind with
    | Some DFG.LeafIdentifier => ([], states)
    | Some (DFG.SimpleAssignment t v) | Some (DFG.DeclarationWithInit t v) =>
        DFG.assign table index_to_code (cs !! t) (cs !! v) states
    | Some (DFG.Conditional branch_kinds) =>
        let is_branch := λ sub : string * (VariableState → DFGResult),
          bool_decide (sub.1 ∈ branch_kinds) in
        let '(dfg, current) :=
          DFG.in_sequence (filter (λ sub, ¬ is_branch sub) subs).*2 states in
        let outs := map (λ sub, sub.2 current) (filter is_branch subs) in
        (dfg ++ concat outs.*1, DFG.merge_states current outs.*2)
    | Some DFG.Loop =>
        let '(dfg1, states1) := DFG.in_sequence subs.*2 states in
        let '(dfg2, states2) := DFG.in_sequence subs.*2 states1 in
        (dfg1 ++ dfg2, states2 ∪ states)
    | Some (DFG.FunctionBoundary parameter_kinds) =>
        let parameters := filter (λ c, type c ∈ parameter_kinds) cs in
        let fresh :=
          DFG.bind_names
            (concat (map (DFG.names_in table index_to_code) parameters)) ∅ in
        ((DFG.in_sequence subs.*2 fresh).1, states)
    | Some DFG.CompoundExpression | Some DFG.Call | None =>
        DFG.in_sequence subs.*2 states
    end.
Proof. reflexivity. Qed.


Section EdgeInvariant.

Context (P : DFGEdge → Prop).

Lemma in_sequence_edges (steps : list (VariableState → DFGResult)) :
  Forall (λ step, ∀ st, Forall P (step st).1) steps →
  ∀ st, Forall P (DFG.in_sequence steps st).1.
Proof.
  induction 1 as [|step steps Hstep _ IH]; intros st; [constructor|].
  cbn [DFG.in_sequence]. specialize (Hstep st).
  destruct (step st) as [dfg1 st1]. specialize (IH st1).
  destruct (DFG.in_sequence steps st1) as [dfg2 st2].
  by apply Forall_app.
Qed.

Lemma analyses_edges (cs : list SyntaxNode) :
  Forall (λ c, ∀ st, Forall P (DFG.analyze table index_to_code c st).1) cs →
  Forall (λ sub : string * (VariableState → DFGResult),
            ∀ st, Forall P (sub.2 st).1) (analyses cs).
Proof. intros H. unfold DFG.analyses. by apply Forall_fmap. Qed.

(** An invariant of the edges emitted by assignments is an invariant of
    all the edges of an analysis: no other pattern emits an edge of its
    own. *)
Lemma analyze_edges :
  (∀ target value st,
     Forall P (DFG.assign table index_to_code target value st).1) →
  ∀ n st, Forall P (DFG.analyze table index_to_code n st).1.
Proof.
  intros Hassign.
  induction n as [kind s e cs IH] using SyntaxNode_children_ind. intros st.
  rewrite analyze_unfold. cbv zeta.
  apply analyses_edges in IH.
  assert (Hall : ∀ st', Forall P (DFG.in_sequence (analyses cs).*2 st').1).
  { apply in_sequence_edges, Forall_fmap. exact IH. }
  destruct (table !! kind) as [[|t v| |t v|branch_kinds| |parameter_kinds|]|];
    try apply Hall; try apply Hassign.
  - constructor.
  - match goal with
    | |- context [DFG.in_sequence ?steps st] =>
        assert (Hcond : Forall P (DFG.in_sequence steps st).1);
        [|destruct (DFG.in_sequence steps st) as [dfg current]]
    end.
    { apply in_sequence_edges, Forall_fmap, Forall_forall.
      intros sub [_ Hsub]%list_elem_of_filter.
      rewrite Forall_forall in IH. exact (IH sub Hsub). }
    apply Forall_app. split; [exact Hcond|].
    apply Forall_concat, Forall_fmap, Forall_fmap, Forall_forall.
    intros sub [_ Hsub]%list_elem_of_filter.
    rewrite Forall_forall in IH. exact (IH sub Hsub current).
  - pose proof (Hall st) as H1.
    destruct (DFG.in_sequence (analyses cs).*2 st) as [dfg1 st1].
    pose proof (Hall st1) as H2.
    destruct (DFG.in_sequence (analyses cs).*2 st1) as [dfg2 st2].
    by apply Forall_app.
Qed.

End EdgeInvariant.

Lemma assign_relations target value st :
  Forall valid_relation (DFG.assign table index_to_code target value st).1.
Proof.
  unfold DFG.assign. destruct target as [lhs|]; [|constructor].
  apply Forall_fmap, Forall_forall. intros t _.
  unfold valid_relation. cbn [edge_rel].
  destruct value as [value|]; cbn [from_option]; [|by left].
  unfold DFG.relation_of.
  destruct (table !! type value) as [[]|]; auto.
Qed.

Lemma analyze_relations n st :
  Forall valid_relation (DFG.analyze table index_to_code n st).1.
Proof. apply analyze_edges, assign_relations. Qed.

End BuilderProperties.

(** C4: every edge that a builder function returns carries one of the two
    relation labels, so the assertion of [extract_structure] on the
    returned edges holds. *)
Theorem builder_relation_kinds (f : DFGFunction) (root_node : SyntaxNode)
    (index_to_code : TokenIndex) (states : VariableState) :
  Forall (λ d, edge_rel d = "comesFrom" ∨ edge_rel d = "computedFrom")
    (call_dfg f root_node index_to_code states).1
  ∧ assert_relations
      (edge_to_py <$> (call_dfg f root_node index_to_code states).1) = Ok ().
Proof.
  pose proof (analyze_relations (table_of f) index_to_code root_node states)
    as Hrel.
  split; [exact Hrel | by apply assert_relations_edge_list].
Qed.


(** *** The unsupported pattern *)










(** ** The two programs of the test suite *)

(** C1: on the loop program, analysed with the Python table, the leaves
    are indexed in source order ([total] of the loop body is token 11) and
    the builder returns four edges: the initial definition of [total];
    the edge of the first pass over the loop, where the in-loop [total]
    is computed from the [total] defined before the loop; the edge of the
    second pass, where it is computed from itself; and the edge of
    [result], computed from [total]. *)
Theorem loop_self_dependency :
  mapM (λ index, Utils.index_to_code_token index
                   (PyStr.split Examples.loop_code))
       (Utils.tree_to_token_index Examples.loop_tree)
  = Some ["total"; "="; "0"; "for"; "i"; "in"; "range"; "("; "5"; ")"; ":";
          "total"; "="; "total"; "+"; "i"; "result"; "="; "total"; "*"; "2"]
  ∧ ∃ dfg states,
      extract_dfg DFG_python Examples.loop_tree Examples.loop_code
      = Some (dfg, states)
      ∧ dfg = [Edge "total" 0 "comesFrom" [] [];
               Edge "total" 11 "computedFrom" ["total"] [0];
               Edge "total" 11 "computedFrom" ["total"] [11];
               Edge "result" 16 "computedFrom" ["total"] [11]]
      ∧ (∃ d, d ∈ dfg ∧ edge_var d = "total" ∧ edge_idx d = 11
              ∧ "total" ∈ edge_src_vars d ∧ edge_idx d ∈ edge_src_idxs d)
      ∧ (∃ d, d ∈ dfg ∧ edge_var d = "result"
              ∧ edge_rel d = "computedFrom" ∧ "total" ∈ edge_src_vars d).
Proof.
  split; [by vm_compute|].
  eexists _, _. split; [by vm_compute|]. split; [done|]. split.
  - exists (Edge "total" 11 "computedFrom" ["total"] [11]).
    cbn [edge_var edge_idx edge_src_vars edge_src_idxs].
    repeat split; set_solver.
  - exists (Edge "result" 16 "computedFrom" ["total"] [11]).
    cbn [edge_var edge_rel edge_src_vars]. repeat split; set_solver.
Qed.

(** C2: on the branch program the definitions of [x] in the two branches
    are the tokens 3 and 8; the state that leaves the conditional maps [x]
    to both, and the edge of [y] (token 11) lists both as its sources. *)
Theorem branch_union :
  ∃ index_to_code,
    Utils.build_index_to_code (Utils.tree_to_token_index Examples.branch_tree)
      (PyStr.split Examples.branch_code) = Some index_to_code
    ∧ index_to_code !! ((1, 4), (1, 5)) = Some (3, "x")
    ∧ index_to_code !! ((3, 4), (3, 5)) = Some (8, "x")
    ∧ (call_dfg DFG_python Examples.branch_conditional index_to_code ∅).2
        !! "x" = Some [3; 8]
    ∧ ∃ states,
        extract_dfg DFG_python Examples.branch_tree Examples.branch_code
        = Some ([Edge "x" 3 "comesFrom" [] []; Edge "x" 8 "comesFrom" [] [];
                 Edge "y" 11 "comesFrom" ["x"] [3; 8]], states)
        ∧ states !! "x" = Some [3; 8].
Proof.
  eexists. split; [by vm_compute|]. repeat split; try by vm_compute.
  eexists. split; by vm_compute.
Qed.

(** * Further properties of the sources *)


(** ** The mapping [index_to_code] *)

Abbreviation store_entry :=
  (λ (m : TokenIndex) (entry : nat * (Span * string)),
     <[entry.2.1 := (entry.1, entry.2.2)]> m).

Section IndexToCode.

Implicit Types (entries : list (nat * (Span * string))) (m : TokenIndex).

Lemma store_entries_other entries m span :
  span ∉ entries.*2.*1 →
  foldl store_entry m entries !! span = m !! span.
Proof.
  revert m. induction entries as [|[i [k v]] entries IH]; intros m; [done|].
  cbn [fmap list_fmap foldl fst snd]. intros [Hk Hrest]%not_elem_of_cons.
  rewrite IH by done. by rewrite lookup_insert_ne.
Qed.

Lemma store_entries_member entries m i span token :
  NoDup entries.*2.*1 →
  (i, (span, token)) ∈ entries →
  foldl store_entry m entries !! span = Some (i, token).
Proof.
  revert m. induction entries as [|[j [k v]] entries IH]; intros m.
  - by intros _ ?%elem_of_nil.
  - cbn [fmap list_fmap foldl fst snd].
    intros [Hk Hrest]%NoDup_cons [Heq|Hin]%elem_of_cons.
    + simplify_eq. rewrite store_entries_other by done.
      by rewrite lookup_insert_eq.
    + by apply IH.
Qed.

Lemma enumerated_keys (tokens_index : list Span) (code_tokens : list string) :
  length tokens_index = length code_tokens →
  (imap pair (zip tokens_index code_tokens)).*2.*1 = tokens_index.
Proof.
  intros Hlen. rewrite !fmap_imap.
  rewrite (imap_ext _ (const fst)) by done.
  rewrite imap_const. apply fst_zip. lia.
Qed.

End IndexToCode.

(** X1: when the spans of the leaves are pairwise different and every
    leaf has its token, [index_to_code] maps the span of leaf [i] to
    [(i, token of leaf i)], and has no entry for any other span. *)
Theorem index_to_code_of_lookup (tokens_index : list Span)
    (code_tokens : list string) :
  NoDup tokens_index →
  length tokens_index = length code_tokens →
  (∀ i span token,
     tokens_index !! i = Some span → code_tokens !! i = Some token →
     index_to_code_of tokens_index code_tokens !! span = Some (i, token))
  ∧ (∀ span, span ∉ tokens_index →
       index_to_code_of tokens_index code_tokens !! span = None)
  ∧ size (index_to_code_of tokens_index code_tokens) = length tokens_index.
Proof.
  intros Hnodup Hlen. unfold index_to_code_of.
  pose proof (enumerated_keys _ _ Hlen) as Hkeys.
  assert (Hin : ∀ i span token,
            tokens_index !! i = Some span → code_tokens !! i = Some token →
            foldl store_entry ∅ (imap pair (zip tokens_index code_tokens))
              !! span = Some (i, token)).
  { intros i span token Hspan Htoken.
    apply store_entries_member; [by rewrite Hkeys|].
    apply (elem_of_lookup_imap_2 pair _ (span, token) i).
    rewrite lookup_zip_with, Hspan. cbn. by rewrite Htoken. }
  assert (Hout : ∀ span, span ∉ tokens_index →
            foldl store_entry ∅ (imap pair (zip tokens_index code_tokens))
              !! span = None).
  { intros span Hspan. rewrite store_entries_other by (by rewrite Hkeys).
    apply lookup_empty. }
  split; [exact Hin|]. split; [exact Hout|].
  rewrite <- size_dom, <- (size_list_to_set (C := gset Span) tokens_index)
    by done.
  f_equal. apply set_eq. intros span.
  rewrite elem_of_dom, elem_of_list_to_set. split.
  - intros Hsome. destruct (decide (span ∈ tokens_index)) as [|Hno]; [done|].
    rewrite (Hout _ Hno) in Hsome. by destruct Hsome.
  - intros (i & Hi)%list_elem_of_lookup.
    destruct (lookup_lt_is_Some_2 code_tokens i) as [token Htoken].
    { rewrite <- Hlen. by eapply lookup_lt_Some. }
    rewrite (Hin _ _ _ Hi Htoken). by eexists.
Qed.

(** The theorem on the two names of [y = x]. *)
Lemma index_to_code_of_lookup_witness :
  index_to_code_of [((4, 0), (4, 1)); ((4, 4), (4, 5))] ["y"; "x"]
    !! ((4, 4), (4, 5)) = Some (1, "x").
Proof.
  refine (proj1 (index_to_code_of_lookup
                   [((4, 0), (4, 1)); ((4, 4), (4, 5))] ["y"; "x"] _ _)
            1 ((4, 4), (4, 5)) "x" _ _);
    [by apply (bool_decide_unpack _) | reflexivity..].
Defined.

Lemma build_index_to_code_from_fold (code_lines : list string)
    (token_index : list Span) (idx : nat) (m : TokenIndex) :
  Utils.build_index_to_code_from idx token_index code_lines m
  = (code_tokens ←
       mapM (λ index, Utils.index_to_code_token index code_lines) token_index;
     Some (foldl store_entry m
             (imap (λ j, pair (idx + j)) (zip token_index code_tokens)))).
Proof.
  revert idx m. induction token_index as [|index rest IH]; intros idx m.
  - reflexivity.
  - cbn [Utils.build_index_to_code_from mapM].
    destruct (Utils.index_to_code_token index code_lines) as [token|];
      [|done].
    cbn [mbind option_bind]. rewrite IH.
    destruct (mapM _ rest) as [code_tokens|]; [|done].
    cbn [mbind option_bind mret option_ret zip zip_with].
    rewrite imap_cons. cbn [foldl fst snd]. rewrite Nat.add_0_r.
    do 2 f_equal. apply imap_ext. intros j x _. cbn. f_equal. lia.
Qed.

(** X2: the loop of the test scripts that fills [index_to_code] leaf by
    leaf and the comprehension of [extract_structure] over the enumerated
    leaves and their tokens build the same mapping; the loop fails exactly
    when the token of some leaf cannot be read. *)
Theorem build_index_to_code_is_index_to_code_of (token_index : list Span)
    (code_lines : list string) :
  Utils.build_index_to_code token_index code_lines
  = (code_tokens ←
       mapM (λ index, Utils.index_to_code_token index code_lines) token_index;
     Some (index_to_code_of token_index code_tokens)).
Proof.
  unfold Utils.build_index_to_code, index_to_code_of.
  rewrite build_index_to_code_from_fold.
  destruct (mapM _ token_index) as [code_tokens|]; [|done].
  cbn [mbind option_bind]. do 2 f_equal.
Qed.

(** ** The text of a token *)

Lemma mapM_lookup_seq_is_Some (code_lines : list string) (a n : nat) :
  is_Some (mapM (λ i, code_lines !! i) (seq a n))
  ↔ n = 0 ∨ a + n ≤ length code_lines.
Proof.
  rewrite mapM_is_Some, Forall_forall. split.
  - intros Hall. destruct n as [|n]; [by left|right].
    destruct (Hall (a + n)) as [x Hx]; [apply elem_of_seq; lia|].
    apply lookup_lt_Some in Hx. lia.
  - intros Hn i [Hi1 Hi2]%elem_of_seq. apply lookup_lt_is_Some_2. lia.
Qed.

(** X3: reading the token of a span raises [IndexError] exactly when the
    start row or the end row is not a row of the source; the columns
    never raise. *)
Theorem index_to_code_token_rows (index : Span) (code_lines : list string) :
  is_Some (Utils.index_to_code_token index code_lines)
  ↔ Nat.max index.1.1 index.2.1 < length code_lines.
Proof.
  destruct index as [[r1 c1] [r2 c2]]. unfold Utils.index_to_code_token.
  cbn [fst snd]. case_decide as Hrows.
  - subst r2. rewrite Nat.max_id, <- lookup_lt_is_Some.
    destruct (code_lines !! r1); cbn; split; intros [? ?]; by eexists.
  - pose proof (mapM_lookup_seq_is_Some code_lines (S r1) (r2 - S r1)) as Hmid.
    pose proof (lookup_lt_is_Some code_lines r1) as H1.
    pose proof (lookup_lt_is_Some code_lines r2) as H2.
    destruct (code_lines !! r1) as [first_line|]; cbn [mbind option_bind].
    + destruct (mapM _ _) as [middle|]; cbn [mbind option_bind].
      * destruct (code_lines !! r2) as [last_line|]; cbn [mbind option_bind].
        -- split; [intros _|by eexists].
           assert (r1 < length code_lines) by (apply H1; by eexists).
           assert (r2 < length code_lines) by (apply H2; by eexists). lia.
        -- split; [by intros [? ?]|]. intros Hmax.
           destruct (proj2 H2) as [? ?]; [lia|done].
      * split; [by intros [? ?]|]. intros Hmax.
        destruct (proj2 Hmid) as [? ?]; [lia|done].
    + split; [by intros [? ?]|]. intros Hmax.
      destruct (proj2 H1) as [? ?]; [lia|done].
Qed.

Lemma str_length_app (s t : string) :
  String.length (s +:+ t) = String.length s + String.length t.
Proof. induction s as [|c s IH]; [done|]. rewrite str_app_cons. cbn. by rewrite IH. Qed.

Lemma str_length_take n (s : string) :
  String.length (PyStr.take n s) = Nat.min n (String.length s).
Proof.
  revert s. induction n as [|n IH]; intros [|c s]; try done.
  cbn [PyStr.take String.length]. by rewrite IH.
Qed.

Lemma str_length_drop n (s : string) :
  String.length (PyStr.drop n s) = String.length s - n.
Proof.
  revert s. induction n as [|n IH]; intros s.
  - cbn [PyStr.drop]. lia.
  - destruct s as [|c s]; [done|]. cbn [PyStr.drop String.length]. by rewrite IH.
Qed.

Lemma str_drop_drop n m (s : string) :
  PyStr.drop m (PyStr.drop n s) = PyStr.drop (n + m) s.
Proof.
  revert s. induction n as [|n IH]; intros s; [done|].
  destruct s as [|c s]; [by destruct m|]. cbn [PyStr.drop Nat.add]. apply IH.
Qed.

Lemma occurs_in_trans (s t u : string) :
  PyStr.occurs_in s t → PyStr.occurs_in t u → PyStr.occurs_in s u.
Proof.
  intros (pre1 & post1 & ->) (pre2 & post2 & ->).
  exists (pre2 +:+ pre1), (post1 +:+ post2).
  by rewrite !str_app_assoc.
Qed.

(** Every piece of [s.split('\n')] occurs in [s]. *)
Lemma line_occurs (code : string) (r : nat) (line : string) :
  PyStr.split code !! r = Some line → PyStr.occurs_in line code.
Proof.
  intros Hline. rewrite <- (join_lines_split code) at 1.
  rewrite <- (take_drop_middle _ _ _ Hline), join_lines_app_cons.
  destruct (drop (S r) (PyStr.split code)) as [|l ls] eqn:Hrest.
  - eexists _, EmptyString. by rewrite str_app_nil_r.
  - rewrite join_lines_cons by done. by eexists _, _.
Qed.

(** X4: the token of a leaf on one row, with its columns in order and
    within the row, is the verbatim text between the columns: the row is
    its head up to the start column, the token, and its tail from the end
    column; the token has as many characters as the columns are apart,
    and it occurs in the source. *)
Theorem single_row_token (code : string) (r c1 c2 : nat) (line : string) :
  PyStr.split code !! r = Some line →
  c1 ≤ c2 →
  c2 ≤ String.length line →
  ∃ token,
    Utils.index_to_code_token ((r, c1), (r, c2)) (PyStr.split code)
    = Some token
    ∧ line = PyStr.take c1 line +:+ token +:+ PyStr.drop c2 line
    ∧ String.length token = c2 - c1
    ∧ PyStr.occurs_in token code.
Proof.
  intros Hline Hle Hlen. exists (PyStr.slice c1 c2 line).
  assert (Hparts : line = PyStr.take c1 line +:+ PyStr.slice c1 c2 line
                          +:+ PyStr.drop c2 line).
  { unfold PyStr.slice.
    replace (PyStr.drop c2 line)
      with (PyStr.drop (c2 - c1) (PyStr.drop c1 line))
      by (rewrite str_drop_drop; f_equal; lia).
    by rewrite !str_take_drop. }
  split; [|split; [exact Hparts|split]].
  - unfold Utils.index_to_code_token. cbn [fst snd].
    rewrite decide_True by done. by rewrite Hline.
  - unfold PyStr.slice. rewrite str_length_take, str_length_drop. lia.
  - apply (occurs_in_trans _ line); [|by eapply line_occurs].
    by eexists _, _.
Qed.

(** The theorem on the last name of the branch program. *)
Lemma single_row_token_witness :
  ∃ token,
    Utils.index_to_code_token ((4, 4), (4, 5))
      (PyStr.split Examples.branch_code) = Some token
    ∧ "y = x" = PyStr.take 4 "y = x" +:+ token +:+ PyStr.drop 5 "y = x"
    ∧ String.length token = 5 - 4
    ∧ PyStr.occurs_in token Examples.branch_code.
Proof.
  apply (single_row_token Examples.branch_code 4 4 5 "y = x");
    [reflexivity | lia | cbn; lia].
Defined.

(** ** Lists of computations that may raise *)

Lemma mapM_result_Ok {A B} (f : A → result B) (l : list A) (k : list B) :
  mapM f l = Ok k ↔ Forall2 (λ x y, f x = Ok y) l k.
Proof.
  revert k. induction l as [|x l IH]; intros k.
  - split; [intros [= <-]; constructor | by inversion 1].
  - cbn [mapM]. destruct (f x) as [y|e] eqn:Hx; cbn [mbind result_bind].
    + destruct (mapM f l) as [k'|e] eqn:Hl; cbn [mbind result_bind].
      * split.
        -- intros [= <-]. constructor; [done|]. by apply IH.
        -- inversion 1 as [|? y' ? k'' Hy Hk]; subst.
           apply IH in Hk. rewrite Hx in Hy. by simplify_eq.
      * split; [done|]. inversion 1 as [|? y' ? k'' Hy Hk]; subst.
        by apply IH in Hk.
    + split; [done|]. inversion 1; congruence.
Qed.

Lemma mapM_result_Raise {A B} (f : A → result B) (l : list A) :
  (∃ e, mapM f l = Raise e) ↔ Exists (λ x, ∃ e, f x = Raise e) l.
Proof.
  induction l as [|x l IH].
  - split; [by intros [? ?] | by inversion 1].
  - cbn [mapM]. rewrite Exists_cons, <- IH.
    destruct (f x) as [y|e]; cbn [mbind result_bind].
    + destruct (mapM f l) as [k|e]; cbn [mbind result_bind].
      * split; [by intros [? ?] | by intros [[? ?]|[? ?]]].
      * split; [right; by eexists | by eexists].
    + split; [left; by eexists | by eexists].
Qed.

(** ** The assembler on arbitrary values *)

(** A dict with an item 4 and no item 1: reading the pair of an element
    that is kept raises [KeyError]; an element that is not kept is never
    read at position 1. *)
Lemma assemble_dict_items :
  assemble [PyDict [(PyInt 4, PyList [PyInt 0])]] = Raise KeyError
  ∧ assemble [PyDict [(PyInt 4, PyList [])]] = Ok [].
Proof. by split. Qed.

(** X5: on any list of values the comprehension of the assembler returns
    exactly when every element has an item 4 that has a length and, when
    that length is positive, an item 1; the item 1 of an element that is
    not kept is never read, and the items 0, 2 and 3 play no part. *)
Theorem assemble_returns_iff (DFG : list PyVal) :
  (∃ out, assemble DFG = Ok out)
  ↔ Forall (λ d, ∃ d4 n,
              py_getitem d 4 = Ok d4 ∧ py_len d4 = Ok n
              ∧ (0 < n → ∃ d1, py_getitem d 1 = Ok d1)) DFG.
Proof.
  induction DFG as [|d DFG IH].
  - split; [constructor | by eexists].
  - rewrite Forall_cons, <- IH. clear IH. cbn [assemble].
    destruct (py_getitem d 4) as [d4|e] eqn:H4; cbn [mbind result_bind].
    2: { split; [by intros [? ?]|]. by intros [(? & ? & ? & ?) _]. }
    destruct (py_len d4) as [n|e] eqn:Hn; cbn [mbind result_bind].
    2: { split; [by intros [? ?]|]. intros [(? & ? & ? & ? & ?) _].
         congruence. }
    case_bool_decide as Hpos.
    + destruct (py_getitem d 1) as [d1|e] eqn:H1; cbn [mbind result_bind].
      * assert (Hd : ∃ d4' n', Ok d4 = Ok d4' ∧ py_len d4' = Ok n'
                       ∧ (0 < n' → ∃ d1', Ok d1 = Ok d1'))
          by (exists d4, n; eauto).
        destruct (assemble DFG) as [final|e]; cbn [mbind result_bind].
        -- split; [intros _; split; [exact Hd | by eexists] | by eexists].
        -- split; [by intros [? ?] | by intros [_ [? ?]]].
      * split; [by intros [? ?]|].
        intros [(d4' & n' & [= <-] & Hn' & Hitem) _].
        rewrite Hn in Hn'. injection Hn' as <-.
        by destruct (Hitem Hpos).
    + assert (Hd : ∃ d4' n', Ok d4 = Ok d4' ∧ py_len d4' = Ok n'
                     ∧ (0 < n' → ∃ d1', py_getitem d 1 = Ok d1'))
        by (exists d4, n; repeat split; [done | by intros ?]).
      split; [intros Hout; by split | by intros [_ Hout]].
Qed.

(** The equivalence on a list of two elements: a dict that has an empty
    item 4 and no item 1, and an edge of the documented shape. *)
Lemma assemble_returns_iff_witness :
  ∃ out,
    assemble [PyDict [(PyInt 4, PyList [])];
              PyTuple [PyStr "y"; PyInt 11; PyStr "comesFrom";
                       PyList [PyStr "x"]; PyList [PyInt 3; PyInt 8]]]
    = Ok out.
Proof.
  apply (proj2 (assemble_returns_iff _)).
  constructor; [|constructor; [|constructor]].
  - exists (PyList []), 0. split; [reflexivity|]. split; [reflexivity|].
    intros Hpos. exfalso. exact (Nat.lt_irrefl 0 Hpos).
  - exists (PyList [PyInt 3; PyInt 8]), 2.
    split; [reflexivity|]. split; [reflexivity|].
    intros _. exists (PyInt 11). reflexivity.
Defined.

(** X6: whatever values the assembler is given, when it returns, every
    entry of its result is the pair [(d[1], d[4])] of an element [d] of
    the input whose [d[4]] is not empty, and the result is not longer
    than the input. *)
Theorem assemble_entries (DFG out : list PyVal) :
  assemble DFG = Ok out →
  length out ≤ length DFG
  ∧ Forall (λ v, ∃ d d1 d4 n,
              d ∈ DFG ∧ py_getitem d 1 = Ok d1 ∧ py_getitem d 4 = Ok d4
              ∧ py_len d4 = Ok n ∧ 0 < n ∧ v = PyTuple [d1; d4]) out.
Proof.
  revert out. induction DFG as [|d DFG IH]; intros out.
  - intros [= <-]. split; [done|constructor].
  - cbn [assemble].
    destruct (py_getitem d 4) as [d4|] eqn:H4; [|done].
    cbn [mbind result_bind].
    destruct (py_len d4) as [n|] eqn:Hn; [|done]. cbn [mbind result_bind].
    assert (Hrest : ∀ final, assemble DFG = Ok final →
              length final ≤ length DFG
              ∧ Forall (λ v, ∃ d' d1 d4 n,
                  d' ∈ d :: DFG ∧ py_getitem d' 1 = Ok d1
                  ∧ py_getitem d' 4 = Ok d4 ∧ py_len d4 = Ok n ∧ 0 < n
                  ∧ v = PyTuple [d1; d4]) final).
    { intros final [Hlen Hall]%IH. split; [done|].
      eapply Forall_impl; [exact Hall|].
      intros v (d' & d1' & d4' & n' & Hin & ?). exists d', d1', d4', n'.
      split; [by right | done]. }
    case_bool_decide as Hpos.
    + destruct (py_getitem d 1) as [d1|] eqn:H1; [|done].
      cbn [mbind result_bind].
      destruct (assemble DFG) as [final|]; [|done]. cbn [mbind result_bind].
      intros [= <-]. destruct (Hrest final eq_refl) as [Hlen Hall].
      split; [cbn; lia|]. constructor; [|done].
      exists d, d1, d4, n. repeat split; try done. by left.
    + intros [Hlen Hall]%Hrest. split; [cbn; lia | done].
Qed.

(** The theorem on a list with an entry that is not an edge at all: a
    string of five characters. *)
Lemma assemble_entries_witness :
  length [PyTuple [PyStr "d"; PyStr "s"]] ≤ length [PyStr "edges"]
  ∧ Forall (λ v, ∃ d d1 d4 n,
              d ∈ [PyStr "edges"] ∧ py_getitem d 1 = Ok d1
              ∧ py_getitem d 4 = Ok d4
              ∧ py_len d4 = Ok n ∧ 0 < n ∧ v = PyTuple [d1; d4])
      [PyTuple [PyStr "d"; PyStr "s"]].
Proof.
  exact (assemble_entries [PyStr "edges"]
           [PyTuple [PyStr "d"; PyStr "s"]] eq_refl).
Defined.

(** ** [extract_structure] beyond the builder's edges *)

Lemma assert_relations_decide (DFG : list DFGEdge) :
  assert_relations (edge_to_py <$> DFG)
  = if decide (Forall valid_relation DFG) then Ok () else Raise AssertionError.
Proof.
  induction DFG as [|d DFG IH]; [done|].
  rewrite fmap_cons. cbn [assert_relations].
  cbn [edge_to_py py_getitem lookup list_lookup mbind result_bind py_eq_str].
  rewrite IH. clear IH.
  destruct (decide (valid_relation d)) as [Hd|Hd].
  - assert (bool_decide (edge_rel d = "comesFrom")
            || bool_decide (edge_rel d = "computedFrom") = true) as ->.
    { destruct Hd as [-> | ->]; done. }
    destruct (decide (Forall valid_relation DFG)) as [Hall|Hall].
    + by rewrite decide_True by (by constructor).
    + rewrite decide_False; [done|]. by intros [_ ?]%Forall_cons.
  - assert (bool_decide (edge_rel d = "comesFrom")
            || bool_decide (edge_rel d = "computedFrom") = false) as ->.
    { apply orb_false_intro; apply bool_decide_eq_false_2; intros Heq;
        apply Hd; [by left | by right]. }
    rewrite decide_False; [done|]. by intros [? _]%Forall_cons.
Qed.

Section ExtractStructureMore.

Context (tree_to_token_nodes : SyntaxNode → list SyntaxNode)
        (index_to_code_token : Span → list string → result string).

Abbreviation extract := (extract_structure tree_to_token_nodes
                           index_to_code_token).

(** X7: the assertion on the relation labels is outside the [try]: when
    the builder returns edges of which one carries another label,
    [extract_structure] raises [AssertionError]; it does not fall back to
    the empty DFG as it does when the builder itself raises. *)
Theorem extract_structure_label_assertion code parser code_tokens edges states :
  let root_node := parse parser code in
  let tokens_index := span_of <$> tree_to_token_nodes root_node in
  mapM (λ x, index_to_code_token x (PyStr.split code)) tokens_index
  = Ok code_tokens →
  build parser root_node (index_to_code_of tokens_index code_tokens) ∅
  = Ok (edge_to_py <$> edges, states) →
  ¬ Forall valid_relation edges →
  extract code parser = Raise AssertionError.
Proof.
  cbv zeta. intros Htokens Hbuild Hrel.
  rewrite (extract_structure_unfold _ _ _ _ _ Htokens), Hbuild. cbv zeta.
  rewrite assert_relations_decide, decide_False by done. reflexivity.
Qed.

(** X8: for a builder that returns edges with valid labels, the DFG of
    [extract_structure] is empty exactly when no edge has a source index:
    the empty DFG that the pipeline counts as failed or empty is also
    what a program without any data flow gives. *)
Theorem extract_structure_empty_dfg code parser code_tokens edges states :
  let root_node := parse parser code in
  let tokens_index := span_of <$> tree_to_token_nodes root_node in
  mapM (λ x, index_to_code_token x (PyStr.split code)) tokens_index
  = Ok code_tokens →
  build parser root_node (index_to_code_of tokens_index code_tokens) ∅
  = Ok (edge_to_py <$> edges, states) →
  Forall valid_relation edges →
  ∃ DFG,
    extract code parser
    = Ok (code_tokens, tree_to_token_nodes root_node, DFG)
    ∧ length DFG = length (filter has_sources edges)
    ∧ (DFG = [] ↔ Forall (λ d, edge_src_idxs d = []) edges).
Proof.
  cbv zeta. intros Htokens Hbuild Hrel.
  rewrite (extract_structure_unfold _ _ _ _ _ Htokens), Hbuild. cbv zeta.
  rewrite (assert_relations_edge_list _ Hrel). cbn [mbind result_bind].
  rewrite assemble_edge_list, assemble_edges_filter. cbn [mbind result_bind].
  eexists. split; [reflexivity|]. rewrite !length_fmap. split; [done|].
  rewrite <- length_zero_iff_nil, !length_fmap, length_zero_iff_nil. clear.
  induction edges as [|d edges IH].
  - split; [constructor | done].
  - rewrite filter_cons, Forall_cons. unfold has_sources at 1.
    destruct (decide (edge_src_idxs d ≠ [])) as [Hd|Hd].
    + split; [done | by intros [? _]].
    + rewrite IH. apply dec_stable in Hd. by intuition.
Qed.

(** X9: when [extract_structure] returns, its second component is the
    list of leaves of the parsed tree and its first component has, leaf
    by leaf, the token read for the span of that leaf. *)
Theorem extract_structure_tokens code parser code_tokens ast_token_nodes DFG :
  extract code parser = Ok (code_tokens, ast_token_nodes, DFG) →
  ast_token_nodes = tree_to_token_nodes (parse parser code)
  ∧ Forall2 (λ node token,
               index_to_code_token (span_of node) (PyStr.split code)
               = Ok token) ast_token_nodes code_tokens.
Proof.
  unfold extract_structure. cbv zeta.
  destruct (mapM _ _) as [tokens|] eqn:Htokens; [|done].
  cbn [mbind result_bind].
  destruct (assert_relations _) as [[]|]; [|done]. cbn [mbind result_bind].
  destruct (assemble _) as [final|]; [|done]. cbn [mbind result_bind].
  intros [= <- <- <-]. split; [done|].
  apply mapM_result_Ok in Htokens. by apply Forall2_fmap_l in Htokens.
Qed.

End ExtractStructureMore.

(** The theorem on the branch program and a builder with the label
    [dependsOn]. *)
Lemma extract_structure_label_assertion_witness :
  extract_structure Utils.tree_to_token_nodes Examples.index_to_code_token
    Examples.branch_code
    (MoreExamples.mislabelled_parser Examples.branch_tree)
  = Raise AssertionError.
Proof.
  refine (extract_structure_label_assertion Utils.tree_to_token_nodes
            Examples.index_to_code_token Examples.branch_code
            (MoreExamples.mislabelled_parser Examples.branch_tree)
            _ [Edge "y" 11 "dependsOn" ["x"] [3]] ∅ _ _ _).
  - vm_compute; reflexivity.
  - reflexivity.
  - intros [[H|H] _]%Forall_cons; discriminate H.
Defined.

(** The theorem on the branch program and the Python builder, two of
    whose three edges have no source. *)
Lemma extract_structure_empty_dfg_witness :
  ∃ DFG,
    extract_structure Utils.tree_to_token_nodes Examples.index_to_code_token
      Examples.branch_code (Examples.python_parser Examples.branch_tree)
    = Ok (["if"; "cond"; ":"; "x"; "="; "1"; "else"; ":"; "x"; "="; "2";
           "y"; "="; "x"],
          Utils.tree_to_token_nodes Examples.branch_tree, DFG)
    ∧ length DFG = 1
    ∧ (DFG = []
       ↔ Forall (λ d, edge_src_idxs d = [])
           [Edge "x" 3 "comesFrom" [] []; Edge "x" 8 "comesFrom" [] [];
            Edge "y" 11 "comesFrom" ["x"] [3; 8]]).
Proof.
  refine (extract_structure_empty_dfg Utils.tree_to_token_nodes
            Examples.index_to_code_token Examples.branch_code
            (Examples.python_parser Examples.branch_tree) _
            [Edge "x" 3 "comesFrom" [] []; Edge "x" 8 "comesFrom" [] [];
             Edge "y" 11 "comesFrom" ["x"] [3; 8]]
            (list_to_map [("x", [3; 8]); ("y", [11])]) _ _ _).
  - vm_compute; reflexivity.
  - vm_compute; reflexivity.
  - repeat constructor.
Defined.

(** The theorem on the branch program and the Python builder. *)
Lemma extract_structure_tokens_witness :
  Utils.tree_to_token_nodes Examples.branch_tree
  = Utils.tree_to_token_nodes Examples.branch_tree
  ∧ Forall2 (λ node token,
               Examples.index_to_code_token (span_of node)
                 (PyStr.split Examples.branch_code) = Ok token)
      (Utils.tree_to_token_nodes Examples.branch_tree)
      ["if"; "cond"; ":"; "x"; "="; "1"; "else"; ":"; "x"; "="; "2";
       "y"; "="; "x"].
Proof.
  refine (extract_structure_tokens Utils.tree_to_token_nodes
            Examples.index_to_code_token Examples.branch_code
            (Examples.python_parser Examples.branch_tree) _ _
            [PyTuple [PyInt 11; PyList [PyInt 3; PyInt 8]]] _).
  vm_compute; reflexivity.
Defined.

(** ** The rows of [add_structure] *)

(** X10: [add_structure] returns exactly when the tag is dispatched and
    [extract_structure] returns on every row of the column; its result
    then has one entry per row, in the order of the rows, each the result
    of [extract_structure] on that row with the parser and the builder of
    the tag.  One row that raises leaves no result at all. *)
Theorem add_structure_rows tree_to_token_nodes index_to_code_token
    parser_of builder_of (data_lang : list string) (lang : string)
    (rows : list (list string * list SyntaxNode * list PyVal)) :
  add_structure tree_to_token_nodes index_to_code_token parser_of builder_of
    data_lang lang = Ok rows
  ↔ ∃ LANGUAGE f,
      dispatch lang = Ok (LANGUAGE, f)
      ∧ Forall2 (λ code row,
                   extract_structure tree_to_token_nodes index_to_code_token
                     code {| parse := parser_of LANGUAGE;
                             build := builder_of f |} = Ok row)
          data_lang rows.
Proof.
  unfold add_structure.
  destruct (dispatch lang) as [[LANGUAGE f]|e]; cbn [mbind result_bind].
  - rewrite mapM_result_Ok. split; [by exists LANGUAGE, f|].
    by intros (? & ? & [= <- <-] & ?).
  - split; [done | by intros (? & ? & ? & _)].
Qed.

(** ** Batches of texts *)

Lemma slice_bound_nat (len a : nat) :
  PyLib.slice_bound len (Z.of_nat a) = Nat.min a len.
Proof.
  unfold PyLib.slice_bound. rewrite decide_False by lia.
  by rewrite Nat2Z.id.
Qed.

(** [l[a:b]] for two positions [a <= b] that are not negative. *)
Lemma slice_nat {A} (l : list A) (a b : nat) :
  a ≤ b → PyLib.slice l (Z.of_nat a) (Z.of_nat b) = take (b - a) (drop a l).
Proof.
  intros Hab. unfold PyLib.slice. rewrite !slice_bound_nat.
  destruct (decide (a ≤ length l)) as [Ha|Ha].
  - rewrite (Nat.min_l a) by done.
    destruct (decide (b ≤ length l)) as [Hb|Hb].
    + by rewrite (Nat.min_l b) by done.
    + rewrite (Nat.min_r b) by lia.
      rewrite !take_ge; [done|rewrite length_drop; lia..].
  - rewrite !Nat.min_r by lia. rewrite !drop_ge by lia. by rewrite !take_nil.
Qed.

Lemma concat_chunks {A} (l : list A) (n k : nat) :
  concat ((λ i, take n (drop (i * n) l)) <$> seq 0 k) = take (k * n) l.
Proof.
  induction k as [|k IH]; [by rewrite take_0|].
  rewrite seq_S, fmap_app, concat_app, IH. cbn [fmap list_fmap concat].
  rewrite app_nil_r, take_take_drop. f_equal. lia.
Qed.

Lemma range_batches (len : nat) (batch_size : Z) :
  (0 < batch_size)%Z →
  ∃ k, PyLib.range 0 (Z.of_nat len) batch_size
       = Ok ((λ i, (Z.of_nat (i * Z.to_nat batch_size))) <$> seq 0 k)
       ∧ len ≤ k * Z.to_nat batch_size
       ∧ ∀ i, i < k → i * Z.to_nat batch_size < len.
Proof.
  intros Hpos. unfold PyLib.range.
  rewrite decide_False, decide_True by lia.
  set (q := ((Z.of_nat len - 0 + batch_size - 1) / batch_size)%Z).
  assert (Hq : (batch_size * q ≤ Z.of_nat len + batch_size - 1
                < batch_size * q + batch_size)%Z).
  { subst q. replace (Z.of_nat len - 0 + batch_size - 1)%Z
      with (Z.of_nat len + batch_size - 1)%Z by lia.
    pose proof (Z.div_mod (Z.of_nat len + batch_size - 1) batch_size).
    pose proof (Z.mod_pos_bound (Z.of_nat len + batch_size - 1) batch_size).
    lia. }
  assert (0 ≤ q)%Z by nia.
  exists (Z.to_nat q). split; [|split].
  - f_equal. apply list_fmap_ext. intros _ i _. lia.
  - nia.
  - intros i Hi. nia.
Qed.

Lemma concat_fmap_each {A B C} (f : A → B) (g : C → list A) (l : list C) :
  concat ((λ i, f <$> g i) <$> l) = f <$> concat (g <$> l).
Proof.
  induction l as [|i l IH]; [done|].
  cbn [concat fmap list_fmap]. by rewrite fmap_app, <- IH.
Qed.

Section Batching.

Context (tokenizer : Tokenize.Tokenizer).

Abbreviation filtered texts :=
  (Tokenize.keep_chars (Tokenize.get_tokenizer_chars tokenizer) <$> texts).

Lemma tokenize_batches (texts : list Tokenize.Text) (batch_size : Z) :
  (0 < batch_size)%Z →
  ∃ k, Tokenize.tokenize_codes_texts tokenizer texts batch_size
       = Ok (concat ((λ i, Tokenize.input_ids tokenizer
                             (take (Z.to_nat batch_size)
                                (drop (i * Z.to_nat batch_size)
                                   (filtered texts))))
                     <$> seq 0 k))
       ∧ length texts ≤ k * Z.to_nat batch_size
       ∧ ∀ i, i < k → i * Z.to_nat batch_size < length texts.
Proof.
  intros Hpos. unfold Tokenize.tokenize_codes_texts. cbv zeta.
  destruct (range_batches (length (filtered texts)) batch_size Hpos)
    as (k & -> & Hk1 & Hk2).
  rewrite length_fmap in Hk1, Hk2.
  exists k. split; [|done]. cbn [mbind result_bind]. do 2 f_equal.
  rewrite <- list_fmap_compose. apply list_fmap_ext. intros _ i _. cbn.
  f_equal.
  replace (Z.of_nat (i * Z.to_nat batch_size) + batch_size)%Z
    with (Z.of_nat (i * Z.to_nat batch_size + Z.to_nat batch_size)) by lia.
  rewrite slice_nat by lia. f_equal. lia.
Qed.

(** X11: with a positive batch size the filtered texts reach the
    tokenizer in batches that, put one after the other, are the filtered
    texts in their order: no text is lost, repeated or moved; no batch is
    empty or longer than the batch size; and the result is the input ids
    of the batches, one batch after the other. *)
Theorem tokenize_codes_texts_batches (texts : list Tokenize.Text)
    (batch_size : Z) :
  (0 < batch_size)%Z →
  ∃ batches,
    concat batches = filtered texts
    ∧ Forall (λ batch, batch ≠ [] ∧ (Z.of_nat (length batch) ≤ batch_size)%Z)
        batches
    ∧ Tokenize.tokenize_codes_texts tokenizer texts batch_size
      = Ok (concat (Tokenize.input_ids tokenizer <$> batches)).
Proof.
  intros Hpos.
  destruct (tokenize_batches texts batch_size Hpos) as (k & -> & Hk1 & Hk2).
  exists ((λ i, take (Z.to_nat batch_size)
                  (drop (i * Z.to_nat batch_size) (filtered texts)))
          <$> seq 0 k).
  split; [|split].
  - rewrite concat_chunks. apply take_ge. by rewrite length_fmap.
  - apply Forall_fmap, Forall_forall. intros i [_ Hi]%elem_of_seq. cbn.
    split.
    + intros Hnil%(f_equal length). revert Hnil.
      rewrite length_take, length_drop, length_fmap. cbn [length].
      specialize (Hk2 i). lia.
    + rewrite length_take. lia.
  - by rewrite <- list_fmap_compose.
Qed.

(** X12: for a tokenizer that encodes the texts of a batch one by one,
    the result has the ids of every filtered text, in the order of the
    texts, whatever the positive batch size. *)
Theorem tokenize_codes_texts_per_text (encode : Tokenize.Text → list nat)
    (texts : list Tokenize.Text) (batch_size : Z) :
  (∀ batch, Tokenize.input_ids tokenizer batch = encode <$> batch) →
  (0 < batch_size)%Z →
  Tokenize.tokenize_codes_texts tokenizer texts batch_size
  = Ok (encode <$> filtered texts).
Proof.
  intros Hencode Hpos.
  destruct (tokenize_batches texts batch_size Hpos) as (k & -> & Hk1 & _).
  f_equal.
  rewrite (list_fmap_ext _ (λ i, encode <$> take (Z.to_nat batch_size)
             (drop (i * Z.to_nat batch_size) (filtered texts))))
    by (intros; apply Hencode).
  rewrite (concat_fmap_each encode
             (λ i, take (Z.to_nat batch_size)
                     (drop (i * Z.to_nat batch_size) (filtered texts)))).
  rewrite concat_chunks. by rewrite take_ge by (by rewrite length_fmap).
Qed.

(** X13: a batch size that is not positive never reaches the tokenizer:
    zero raises [ValueError], also for an empty list of texts, and a
    negative batch size returns the empty list whatever the texts. *)
Theorem tokenize_codes_texts_no_batch (texts : list Tokenize.Text)
    (batch_size : Z) :
  (batch_size ≤ 0)%Z →
  Tokenize.tokenize_codes_texts tokenizer texts batch_size
  = if decide (batch_size = 0)%Z then Raise PyLib.ValueError else Ok [].
Proof.
  intros Hle. unfold Tokenize.tokenize_codes_texts, PyLib.range. cbv zeta.
  case_decide as Hzero; [done|].
  rewrite decide_False by lia.
  set (q := ((0 - Z.of_nat (length (filtered texts)) - batch_size - 1)
             / - batch_size)%Z).
  assert (q < 1)%Z by (apply Z.div_lt_upper_bound; lia).
  by replace (Z.to_nat q) with 0 by lia.
Qed.

End Batching.

(** The theorem on three texts in batches of two. *)
Lemma tokenize_codes_texts_batches_witness :
  ∃ batches,
    concat batches = [[97%N; 98%N]; [98%N]; []]
    ∧ Forall (λ batch, batch ≠ [] ∧ (Z.of_nat (length batch) ≤ 2)%Z) batches
    ∧ Tokenize.tokenize_codes_texts MoreExamples.toy_tokenizer
        MoreExamples.toy_texts 2
      = Ok (concat (Tokenize.input_ids MoreExamples.toy_tokenizer
                    <$> batches)).
Proof.
  exact (tokenize_codes_texts_batches MoreExamples.toy_tokenizer
           MoreExamples.toy_texts 2 eq_refl).
Defined.

(** The theorem on three texts in batches of two. *)
Lemma tokenize_codes_texts_per_text_witness :
  Tokenize.tokenize_codes_texts MoreExamples.toy_tokenizer
    MoreExamples.toy_texts 2
  = Ok [[97; 98]; [98]; []].
Proof.
  refine (eq_trans
            (tokenize_codes_texts_per_text MoreExamples.toy_tokenizer
               (λ text : Tokenize.Text, N.to_nat <$> text)
               MoreExamples.toy_texts 2 _ _) _);
    [intros batch; reflexivity | lia | vm_compute; reflexivity].
Defined.

(** The theorem on the batch size -1. *)
Lemma tokenize_codes_texts_no_batch_witness :
  Tokenize.tokenize_codes_texts MoreExamples.toy_tokenizer
    MoreExamples.toy_texts (-1) = Ok [].
Proof.
  apply (tokenize_codes_texts_no_batch MoreExamples.toy_tokenizer
           MoreExamples.toy_texts (-1)). lia.
Defined.

(** ** The characters that reach the tokenizer *)

Lemma get_tokenizer_chars_member (tokenizer : Tokenize.Tokenizer)
    (c : Tokenize.Text) :
  c ∈ Tokenize.get_tokenizer_chars tokenizer
  ↔ (∃ i, i < Tokenize.vocab_size tokenizer ∧ Tokenize.decode tokenizer i = c)
    ∧ length c = 1 ∧ c ≠ [Tokenize.replacement_character].
Proof.
  unfold Tokenize.get_tokenizer_chars. cbv zeta.
  rewrite !list_elem_of_filter, list_elem_of_fmap. split.
  - intros (Hne & Hlen & i & -> & [_ Hi]%elem_of_seq). eauto.
  - intros ((i & Hi & <-) & Hlen & Hne). repeat split; [done..|].
    exists i. split; [done|]. apply elem_of_seq. lia.
Qed.

(** X14: what [tokenize_codes_texts] keeps of a text is the text without
    some of its characters, in the same order: a character stays exactly
    when some token of the vocabulary decodes to that character alone and
    it is not the replacement character; filtering again changes
    nothing. *)
Theorem keep_chars_of_tokenizer (tokenizer : Tokenize.Tokenizer)
    (text : Tokenize.Text) :
  let kept :=
    Tokenize.keep_chars (Tokenize.get_tokenizer_chars tokenizer) text in
  kept `sublist_of` text
  ∧ (∀ c, c ∈ kept
          ↔ c ∈ text ∧ c ≠ Tokenize.replacement_character
            ∧ ∃ i, i < Tokenize.vocab_size tokenizer
                   ∧ Tokenize.decode tokenizer i = [c])
  ∧ Tokenize.keep_chars (Tokenize.get_tokenizer_chars tokenizer) kept = kept.
Proof.
  cbv zeta. unfold Tokenize.keep_chars. split; [apply sublist_filter|]. split.
  - intros c. rewrite list_elem_of_filter, get_tokenizer_chars_member.
    split.
    + intros [((i & Hi & Hdec) & _ & Hne) Hc]. split; [done|].
      split; [congruence | by exists i].
    + intros (Hc & Hne & i & Hi & Hdec). split; [|done].
      split; [by exists i|]. split; [done | congruence].
  - induction text as [|c text IH]; [done|].
    rewrite filter_cons. case_decide as Hc; [|exact IH].
    rewrite filter_cons, decide_True by done. by rewrite IH.
Qed.

(** ** The rows that [read_examples] returns *)

Lemma example_columns (dataset : list Example) :
  (λ example,
     {| example_id := example_id example;
        example_java := example_java example;
        example_cs := example_cs example |}) <$> dataset = dataset.
Proof. induction dataset as [|[] dataset IH]; [done|]. cbn. by rewrite IH. Qed.

(** X15: with a limit, [read_examples] returns the first rows of what it
    returns without one, in the same order: [min(m, n)] of the [n] rows
    for a positive limit [m], none for a negative limit, and all of them
    for the limit 0, which counts as no limit. *)
Theorem read_examples_limit
    (load_dataset : string → string → result (list Example))
    (split : string) (max_examples : option Z) (full : list Example) :
  read_examples load_dataset split None = Ok full →
  ∃ rows,
    read_examples load_dataset split max_examples = Ok rows
    ∧ rows `prefix_of` full
    ∧ length rows
      = match max_examples with
        | Some m =>
            if decide (m = 0)%Z then length full
            else Z.to_nat (Z.min m (Z.of_nat (length full)))
        | None => length full
        end.
Proof.
  unfold read_examples. cbv zeta.
  destruct (load_dataset _ _) as [dataset|]; [|done].
  cbn [mbind result_bind]. rewrite !example_columns. intros [= <-].
  assert (Hall : ∃ rows : list Example,
            Ok dataset = Ok rows ∧ rows `prefix_of` dataset
            ∧ length rows = length dataset).
  { exists dataset. split; [done|]. split; [by exists []; rewrite app_nil_r|done]. }
  destruct max_examples as [m|]; [|exact Hall].
  case_bool_decide as Hm.
  - rewrite decide_False by done. eexists. split; [done|]. split.
    + exists (drop (Z.to_nat (Z.min m (Z.of_nat (length dataset)))) dataset).
      by rewrite take_drop.
    + rewrite length_take. lia.
  - case_decide; [exact Hall | done].
Qed.

(** The theorem on a split of three rows and the limit 2. *)
Lemma read_examples_limit_witness :
  ∃ rows,
    read_examples MoreExamples.toy_load_dataset "dev" (Some 2%Z) = Ok rows
    ∧ rows `prefix_of` MoreExamples.toy_dataset
    ∧ length rows = 2.
Proof.
  exact (read_examples_limit MoreExamples.toy_load_dataset "dev" (Some 2%Z)
           MoreExamples.toy_dataset eq_refl).
Defined.

(** ** The setup tracker *)

Lemma check_uv_step (env : Setup.Env) :
  (Setup.check_uv env).1
  = match Setup.uv_run env with
    | Some (0%Z, _) => true
    | _ => false
    end.
Proof.
  unfold Setup.check_uv.
  destruct (Setup.uv_run env) as [[returncode stdout]|]; [|done].
  case_bool_decide as Hcode; [by subst|].
  by destruct returncode.
Qed.

Lemma check_data_step (env : Setup.Env) :
  existsb id (Setup.check_data env).*2.*1
  = existsb
      (λ dir, Setup.path_exists env dir
              && negb (Nat.eqb (length (Setup.glob_pkl env dir)) 0))
      ["data/codexglue_translation"; "data/codexglue_generation";
       "data/apps_generation"].
Proof.
  assert (Hdir : ∀ dir,
            (if Setup.path_exists env dir
             then bool_decide (0 < length (Setup.glob_pkl env dir))
             else false)
            = Setup.path_exists env dir
              && negb (Nat.eqb (length (Setup.glob_pkl env dir)) 0)).
  { intros dir. destruct (Setup.path_exists env dir); [|done].
    destruct (Setup.glob_pkl env dir); [done|].
    cbn [length andb Nat.eqb negb]. apply bool_decide_eq_true. lia. }
  cbn -[Setup.path_exists Setup.glob_pkl length bool_decide Nat.eqb].
  unfold Setup.path_join. cbn [String.append].
  by rewrite !Hdir.
Qed.

Lemma check_model_step (env : Setup.Env) :
  (Setup.check_model env).1
  = Setup.path_exists env
      "saved_models/pretrain/checkpoint_best_at_175000.bin".
Proof. unfold Setup.check_model. cbv zeta. by destruct (Setup.path_exists _ _). Qed.

(** The progress is the share of the eight conditions that hold. *)
Lemma calculate_progress_steps (env : Setup.Env) :
  Setup.calculate_progress env
  = (inject_Z (Z.of_nat (count_true (satisfied_steps env))) / inject_Z 8
     * 100)%Q.
Proof.
  unfold Setup.calculate_progress. cbv zeta.
  rewrite check_uv_step, check_data_step, check_model_step.
  unfold satisfied_steps.
  change (Setup.check_venv env).1 with (Setup.path_exists env ".venv").
  change (forallb id (Setup.check_packages env).*2)
    with (forallb (Setup.importable env)
            ["torch"; "transformers"; "datasets"; "tree_sitter"; "numpy";
             "scipy"; "sklearn"; "tqdm"]).
  change (forallb id (Setup.check_parser env).*2.*1)
    with (forallb (Setup.path_exists env)
            ["parser/my-languages.so"; "parser/my-languages2.so";
             "parser/DFG.py"; "parser/utils.py"]).
  change (forallb id (Setup.check_directories env).*2.*1)
    with (forallb (Setup.path_exists env)
            ["saved_models/pretrain"; "data"; "results"]).
  generalize (existsb
      (λ dir, Setup.path_exists env dir
              && negb (Nat.eqb (length (Setup.glob_pkl env dir)) 0))
      ["data/codexglue_translation"; "data/codexglue_generation";
       "data/apps_generation"]).
  generalize (forallb (Setup.path_exists env)
            ["saved_models/pretrain"; "data"; "results"]).
  generalize (forallb (Setup.path_exists env)
            ["parser/my-languages.so"; "parser/my-languages2.so";
             "parser/DFG.py"; "parser/utils.py"]).
  generalize (forallb (Setup.importable env)
            ["torch"; "transformers"; "datasets"; "tree_sitter"; "numpy";
             "scipy"; "sklearn"; "tqdm"]).
  generalize (Setup.path_exists env "test_dfg_extraction.py").
  generalize (Setup.path_exists env
                "saved_models/pretrain/checkpoint_best_at_175000.bin").
  generalize (Setup.path_exists env ".venv").
  generalize (match Setup.uv_run env with
              | Some (0%Z, _) => true
              | _ => false
              end).
  by intros [] [] [] [] [] [] [] [].
Qed.

Lemma count_true_steps (env : Setup.Env) :
  count_true (satisfied_steps env) ≤ 8.
Proof.
  unfold count_true.
  etrans; [apply length_filter|]. done.
Qed.

Lemma up_to_eight (P : nat → Prop) :
  P 0 → P 1 → P 2 → P 3 → P 4 → P 5 → P 6 → P 7 → P 8 →
  ∀ k, k ≤ 8 → P k.
Proof.
  intros ????????? k Hk.
  do 9 (destruct k as [|k]; [done|]). lia.
Qed.


(** X17: the progress bar of [main] has twenty cells whatever the machine
    shows: with [k] conditions satisfied the first [5k/2], rounded down,
    are full and the others light. *)
Theorem bar_twenty_cells (env : Setup.Env) :
  let k := count_true (satisfied_steps env) in
  Setup.bar env
  = repeat Setup.Full (5 * k / 2) ++ repeat Setup.Light (20 - 5 * k / 2)
  ∧ length (Setup.bar env) = 20.
Proof.
  cbv zeta. unfold Setup.bar, Setup.filled.
  rewrite calculate_progress_steps.
  generalize (count_true_steps env).
  generalize (count_true (satisfied_steps env)).
  apply up_to_eight; by vm_compute.
Qed.

(** X18: the percentage that [main] prints, formatted with [.0f], is the
    integer that [main] returns, except when exactly three or seven
    conditions hold: 37.5 and 87.5 are printed as 38 and 88 and returned
    as 37 and 87. *)
Theorem shown_and_returned_progress (env : Setup.Env) :
  let k := count_true (satisfied_steps env) in
  Setup.shown_progress env
  = PyFormat.decimal
      (Setup.returned_progress env
       + (if bool_decide (k = 3%nat ∨ k = 7%nat) then 1 else 0))%Z.
Proof.
  cbv zeta. unfold Setup.shown_progress, Setup.returned_progress.
  rewrite calculate_progress_steps.
  generalize (count_true_steps env).
  generalize (count_true (satisfied_steps env)).
  apply up_to_eight; by vm_compute.
Qed.

Lemma none_missing {A} (present : A → bool) (required : list A) :
  (if bool_decide (filter (λ x, ¬ present x) required ≠ [])
   then false else true)
  = forallb present required.
Proof.
  induction required as [|x required IH]; [done|].
  rewrite filter_cons. cbn [forallb].
  destruct (present x) eqn:Hx.
  - rewrite decide_False by (cbn; tauto). exact IH.
  - rewrite decide_True by (cbn; tauto). by rewrite bool_decide_eq_true_2.
Qed.

(** X19: the availability check that [test_dfg_extraction.py] runs first
    succeeds exactly when the parser step of [check_setup.py] counts: both
    ask for the same four files of the [parser] directory. *)
Theorem check_parser_availability_step (env : Setup.Env) :
  TestDfg.check_parser_availability (Setup.path_exists env)
  = forallb id (Setup.check_parser env).*2.*1.
Proof.
  unfold TestDfg.check_parser_availability. cbv zeta.
  rewrite (none_missing
             (λ file, Setup.path_exists env (Setup.path_join "parser" file))).
  reflexivity.
Qed.

(** ** Loading Concode *)

Lemma mapM_result_cons {A B} (f : A → result B) (x : A) (l : list A) :
  mapM f (x :: l)
  = match f x with
    | Ok y => match mapM f l with
              | Ok k => Ok (y :: k)
              | Raise e => Raise e
              end
    | Raise e => Raise e
    end.
Proof.
  cbn [mapM]. destruct (f x); [|done]. cbn [mbind result_bind].
  by destruct (mapM f l).
Qed.

Lemma mapM_imap_Ok {A B} (f : nat → A → result B) (g : nat → A → B)
    (P : A → Prop) :
  (∀ i x y, f i x = Ok y ↔ P x ∧ y = g i x) →
  ∀ l rows, mapM id (imap f l) = Ok rows ↔ Forall P l ∧ rows = imap g l.
Proof.
  intros Hf l. revert f g Hf.
  induction l as [|x l IH]; intros f g Hf rows.
  - cbn. split; [intros [= <-]; by split | by intros [_ ->]].
  - rewrite !imap_cons, mapM_result_cons, Forall_cons.
    change (id (f 0 x)) with (f 0 x).
    pose proof (IH (f ∘ S) (g ∘ S) (λ i, Hf (S i))) as IHl.
    destruct (f 0 x) as [y|e] eqn:Hx.
    + apply Hf in Hx as [Hx ->].
      destruct (mapM id (imap (f ∘ S) l)) as [rows'|e].
      * destruct (proj1 (IHl rows') eq_refl) as [Hl ->].
        split; [by intros [= <-]|by intros [_ ->]].
      * split; [done|]. intros [[_ Hl] ->].
        by pose proof (proj2 (IHl _) (conj Hl eq_refl)).
    + split; [done|]. intros [[Hx' _] _].
      assert (Hok : f 0 x = Ok (g 0 x)) by by apply Hf.
      congruence.
Qed.

Lemma read_example_Ok
    (remove_comments_and_docstrings :
       Tokenize.Text → string → result Tokenize.Text)
    (idx : nat) (example : Concode.Example) (row : Concode.Row) :
  Concode.read_example remove_comments_and_docstrings idx example = Ok row
  ↔ accepted_code remove_comments_and_docstrings example
    ∧ row = row_of idx example.
Proof.
  unfold Concode.read_example, accepted_code, row_of. cbv zeta.
  destruct (remove_comments_and_docstrings _ _) as [cleaned|e];
    cbn [mbind result_bind]; [|by split; [|intros [[? _] _]]].
  case_bool_decide as Hclean; [subst cleaned|].
  - case_bool_decide as Hline.
    + split; [by intros [= <-]|by intros [_ ->]].
    + split; [done|]. by intros [[_ ?] _].
  - split; [done|]. intros [[[= Heq] _] _]. congruence.
Qed.

(** X20: [read_examples] of [test_concode_small.py], once the split is
    loaded, returns exactly when every example is accepted: stripped, its
    code is left as it is by the comment remover and has no line feed.
    The rows are then the stripped examples in their order, numbered from
    0. *)
Theorem concode_read_examples_rows
    (load_dataset : string → string → result (list Concode.Example))
    (remove_comments_and_docstrings :
       Tokenize.Text → string → result Tokenize.Text)
    (split : string) (max_examples : option Z)
    (dataset : list Concode.Example) (rows : list Concode.Row) :
  load_dataset "google/code_x_glue_tc_text_to_code"
               (Concode.split_argument split max_examples) = Ok dataset →
  Concode.read_examples load_dataset remove_comments_and_docstrings
    split max_examples = Ok rows
  ↔ Forall (accepted_code remove_comments_and_docstrings) dataset
    ∧ rows = imap row_of dataset.
Proof.
  intros Hload. unfold Concode.read_examples. rewrite Hload.
  cbn [mbind result_bind].
  apply mapM_imap_Ok. intros i x y. apply read_example_Ok.
Qed.

(** The theorem on a split of two examples, asked for with the limit
    10. *)
Lemma concode_read_examples_rows_witness :
  Concode.read_examples MoreExamples.concode_load_dataset
    MoreExamples.no_comments "train" (Some 10%Z)
  = Ok (imap row_of MoreExamples.concode_split)
  ↔ Forall (accepted_code MoreExamples.no_comments)
      MoreExamples.concode_split
    ∧ imap row_of MoreExamples.concode_split
      = imap row_of MoreExamples.concode_split.
Proof.
  exact (concode_read_examples_rows MoreExamples.concode_load_dataset
           MoreExamples.no_comments "train" (Some 10%Z)
           MoreExamples.concode_split
           (imap row_of MoreExamples.concode_split) eq_refl).
Defined.
